(** * Community Connect: the authentication and data-access layer of app.py

    A shallow embedding of the Flask routes of [app.py] (register, login,
    logout, book, reviews, profile and the [login_required] guard) over an
    explicit model of the three SQLite tables and of the signed session
    cookie, followed by the properties of that layer: first route by
    route, then of the application as a whole (what any request can
    change, the invariants every request keeps), of [init_db] and of the
    connection helpers [get_db] and [close_connection].

    Conventions of the model:
    - a Python [str] is a [string], its UTF-8 encoding; the built-ins
      [str.strip], [str.lower] and [int] are parameters of the routes,
      with one implementation of them to run the routes on examples;
    - [request.form] is a finite map from field names to values;
    - the Flask [session] is a record of the three keys the application
      ever writes ([user_id], [user_name] and the flash queue);
    - a table is the list of its rows; a [SELECT] visits them by rowid;
    - a handler is a function from the request and the world (session and
      database) to an outcome and the new world; the clock and the salt of
      the password hash are inputs. *)

From Stdlib Require Import ZArith String Ascii List Bool Lia.
From stdpp Require Import base option list sorting strings gmap.
Import ListNotations.

Local Open Scope string_scope.
Local Open Scope Z_scope.

(** ** The Python built-ins the routes call *)

(** A [str] is represented by its UTF-8 encoding, which is also the form
    in which SQLite stores and compares [TEXT]. *)
Module Py.

(** [str.strip], [str.lower] and [int] are not part of [app.py]: the
    routes are defined over any implementation of them, and every
    property of a route is proved for all of them. [int] returns [None]
    where the built-in raises [ValueError]. *)
Class builtins := Builtins {
  strip : string → string;
  lower : string → string;
  int : string → option Z
}.

(** Truth value of a [str]: non-empty. *)
Definition truthy (s : string) : bool :=
  match s with
  | EmptyString => false
  | String _ _ => true
  end.

(** [chr(c)], encoded. *)
Definition chr (c : N) : string :=
  (if c <? 128 then String (ascii_of_N c) ""
   else if c <? 2048 then
     String (ascii_of_N (192 + c / 64))
       (String (ascii_of_N (128 + c mod 64)) "")
   else if c <? 65536 then
     String (ascii_of_N (224 + c / 4096))
       (String (ascii_of_N (128 + (c / 64) mod 64))
          (String (ascii_of_N (128 + c mod 64)) ""))
   else
     String (ascii_of_N (240 + c / 262144))
       (String (ascii_of_N (128 + (c / 4096) mod 64))
          (String (ascii_of_N (128 + (c / 64) mod 64))
             (String (ascii_of_N (128 + c mod 64)) ""))))%N.

(** The characters for which [str.isspace] holds, the ones [strip]
    removes: TAB to CR, FS to US, the space, NEL, the no-break space, the
    Ogham space mark, EN QUAD to HAIR SPACE, the line and paragraph
    separators, the narrow no-break space, the medium mathematical space
    and the ideographic space. *)
Definition whitespace : list N :=
  [9; 10; 11; 12; 13; 28; 29; 30; 31; 32; 133; 160; 5760;
   8192; 8193; 8194; 8195; 8196; 8197; 8198; 8199; 8200; 8201; 8202;
   8232; 8233; 8239; 8287; 12288]%N.

(** The text of a list of characters. *)
Definition text (cs : list N) : string := foldr (λ c r, chr c +:+ r) "" cs.

(** A string made of whitespace characters only, the empty string
    included. *)
Definition blank (s : string) : Prop :=
  ∃ cs : list N, Forall (λ c, c ∈ whitespace) cs ∧ s = text cs.

End Py.

(** ** An implementation of the built-ins, to run the routes *)

(** [strip] is the built-in on every UTF-8 text. [lower] maps the letters
    A to Z and leaves every other byte, and [int] reads ASCII digits
    only: they are the built-ins on text whose characters outside ASCII
    have no lower-case form and are no digits. *)
Module Text.

Definition byte_is (k : N) (a : ascii) : bool := (N_of_ascii a =? k)%N.
Definition byte_in (lo hi : N) (a : ascii) : bool :=
  ((lo <=? N_of_ascii a) && (N_of_ascii a <=? hi))%N.

(** Whitespace characters by the length of their encoding: one byte
    (U+0009 to U+000D, U+001C to U+0020), two bytes (U+0085, U+00A0),
    three bytes (U+1680; U+2000 to U+200A, U+2028, U+2029, U+202F;
    U+205F; U+3000). *)
Definition space1 (a : ascii) : bool := byte_in 9 13 a || byte_in 28 32 a.
Definition space2 (a b : ascii) : bool :=
  byte_is 194 a && (byte_is 133 b || byte_is 160 b).
Definition space3 (a b c : ascii) : bool :=
  byte_is 225 a && byte_is 154 b && byte_is 128 c
  || byte_is 226 a && byte_is 128 b &&
     (byte_in 128 138 c || byte_is 168 c || byte_is 169 c || byte_is 175 c)
  || byte_is 226 a && byte_is 129 b && byte_is 159 c
  || byte_is 227 a && byte_is 128 b && byte_is 128 c.

(** Drop the characters at the head of [l] that the three tests
    recognise. *)
Fixpoint drop_spaces (p1 : ascii → bool) (p2 : ascii → ascii → bool)
    (p3 : ascii → ascii → ascii → bool) (l : list ascii) : list ascii :=
  match l with
  | [] => []
  | a :: l1 =>
      if p1 a then drop_spaces p1 p2 p3 l1
      else
        match l1 with
        | [] => l
        | b :: l2 =>
            if p2 a b then drop_spaces p1 p2 p3 l2
            else
              match l2 with
              | [] => l
              | c :: l3 =>
                  if p3 a b c then drop_spaces p1 p2 p3 l3 else l
              end
        end
  end.

(** Does [l] begin with a character the three tests recognise? *)
Definition starts_space (p1 : ascii → bool) (p2 : ascii → ascii → bool)
    (p3 : ascii → ascii → ascii → bool) (l : list ascii) : bool :=
  match l with
  | [] => false
  | a :: l1 =>
      p1 a ||
      match l1 with
      | [] => false
      | b :: l2 =>
          p2 a b ||
          match l2 with
          | [] => false
          | c :: _ => p3 a b c
          end
      end
  end.

Definition lstrip (l : list ascii) : list ascii :=
  drop_spaces space1 space2 space3 l.

(** From the right: the same on the reversed bytes, the encodings read
    backwards. *)
Definition rstrip (l : list ascii) : list ascii :=
  reverse (drop_spaces space1 (λ b a, space2 a b) (λ c b a, space3 a b c)
             (reverse l)).

(** [s.strip()] *)
Definition strip (s : string) : string :=
  string_of_list_ascii (rstrip (lstrip (list_ascii_of_string s))).

Definition lower_char (c : ascii) : ascii :=
  if byte_in 65 90 c then ascii_of_N (N_of_ascii c + 32) else c.

(** [s.lower()] *)
Fixpoint lower (s : string) : string :=
  match s with
  | EmptyString => EmptyString
  | String c s' => String (lower_char c) (lower s')
  end.

Definition digit_of (c : ascii) : option Z :=
  if byte_in 48 57 c then Some (Z.of_N (N_of_ascii c) - 48) else None.

(** The digit part of an integer literal accepted by [int]: decimal
    digits, single underscores allowed between two digits. [prev] tells
    whether the previous character was a digit. *)
Fixpoint int_digits (acc : Z) (prev : bool) (s : string) : option Z :=
  match s with
  | EmptyString => if prev then Some acc else None
  | String c s' =>
      match digit_of c with
      | Some d => int_digits (10 * acc + d) true s'
      | None =>
          if Ascii.eqb c "_"%char && prev then int_digits acc false s'
          else None
      end
  end.

Fixpoint count_digits (s : string) : N :=
  match s with
  | EmptyString => 0
  | String c s' =>
      ((if byte_in 48 57 c then 1 else 0) + count_digits s')%N
  end.

(** The default of [sys.get_int_max_str_digits()]: a literal with more
    digits is refused. *)
Definition max_str_digits : N := 4300.

Definition int_literal (s : string) : option Z :=
  if (max_str_digits <? count_digits s)%N then None
  else int_digits 0 false s.

(** [int] ignores the whitespace of C around the literal. *)
Definition int_space (a : ascii) : bool := byte_in 9 13 a || byte_is 32 a.

Definition int_strip (s : string) : string :=
  string_of_list_ascii
    (reverse
       (drop_spaces int_space (λ _ _, false) (λ _ _ _, false)
          (reverse
             (drop_spaces int_space (λ _ _, false) (λ _ _ _, false)
                (list_ascii_of_string s))))).

(** [int(s)] for a [str] argument, base 10: one optional sign, then the
    digits. [None] stands for the [ValueError] the built-in raises. *)
Definition int (s : string) : option Z :=
  match int_strip s with
  | String "+"%char r => int_literal r
  | String "-"%char r => Z.opp <$> int_literal r
  | t => int_literal t
  end.

Definition builtins : Py.builtins := Py.Builtins strip lower int.

End Text.

(** ** The tables of [init_db] *)

Record user := User {
  user_id : Z;
  user_name : string;
  user_email : string;
  user_password_hash : string;
  user_created_at : string
}.

Record appointment := Appointment {
  appt_id : Z;
  appt_user_id : option Z;
  appt_name : string;
  appt_email : string;
  appt_date : string;
  appt_time : string;
  appt_reason : string;
  appt_created_at : string
}.

Record review := Review {
  review_id : Z;
  review_user_id : option Z;
  review_name : string;
  review_rating : Z;
  review_comment : string;
  review_created_at : string
}.

Record database := Database {
  users : list user;
  appointments : list appointment;
  reviews_table : list review
}.

#[global] Instance user_eq_dec : EqDecision user.
Proof. solve_decision. Defined.
#[global] Instance appointment_eq_dec : EqDecision appointment.
Proof. solve_decision. Defined.
#[global] Instance review_eq_dec : EqDecision review.
Proof. solve_decision. Defined.

Definition set_users (us : list user) (d : database) : database :=
  Database us (appointments d) (reviews_table d).
Definition set_appointments (l : list appointment) (d : database) : database :=
  Database (users d) l (reviews_table d).
Definition set_reviews (l : list review) (d : database) : database :=
  Database (users d) (appointments d) l.

(** Exceptions that escape a handler. *)
Inductive exn :=
  | ValueError
  | OverflowError
  | IntegrityError.

(** [INTEGER PRIMARY KEY AUTOINCREMENT]: one more than the largest id
    handed out so far. Rows are never deleted, so the largest id of the
    table is the counter. *)
Definition next_id {A} (id : A → Z) (rows : list A) : Z :=
  1 + foldr (λ r m, Z.max (id r) m) 0 rows.

(** [SELECT * FROM users WHERE email = ?] followed by [fetchone]. The
    comparison is SQLite's binary text equality. *)
Definition get_user_by_email (email : string) (d : database) : option user :=
  find (λ u, String.eqb (user_email u) email) (users d).

(** [SELECT * FROM users WHERE id = ?] followed by [fetchone]. The bound
    value is [session.get("user_id")]; SQL [NULL] equals nothing. *)
Definition get_user_by_id (uid : option Z) (d : database) : option user :=
  match uid with
  | None => None
  | Some i => find (λ u, Z.eqb (user_id u) i) (users d)
  end.

(** [INSERT INTO users (name, email, password_hash, created_at)]; the
    [UNIQUE] constraint on [email] makes a second row with the same email
    an [IntegrityError]. *)
Definition insert_user (name email hash now : string) (d : database)
  : exn + database :=
  if existsb (λ u, String.eqb (user_email u) email) (users d)
  then inl IntegrityError
  else inr (set_users
              (users d ++ [User (next_id user_id (users d)) name email hash now])
              d).

Definition insert_appointment (uid : option Z)
    (name email date time reason now : string) (d : database) : database :=
  set_appointments
    (appointments d ++
     [Appointment (next_id appt_id (appointments d)) uid
                  name email date time reason now])
    d.

(** The range of an SQLite [INTEGER]; the driver raises [OverflowError]
    when asked to bind a Python integer outside of it. *)
Definition sqlite_int_ok (z : Z) : bool :=
  (- 2 ^ 63 <=? z) && (z <? 2 ^ 63).

Definition insert_review (uid : option Z) (name : string) (rating : Z)
    (comment now : string) (d : database) : exn + database :=
  if sqlite_int_ok rating
  then inr (set_reviews
              (reviews_table d ++
               [Review (next_id review_id (reviews_table d)) uid
                       name rating comment now])
              d)
  else inl OverflowError.

(** Sorting as SQLite's sorter does it: rows that compare equal stay in
    the order in which they were met. [R x y] reads: [x] may come before
    [y]. *)
Fixpoint insert_stable {A} (R : relation A) `{!RelDecision R}
    (x : A) (l : list A) : list A :=
  match l with
  | [] => [x]
  | y :: l' => if decide (R x y) then x :: l else y :: insert_stable R x l'
  end.

Definition stable_sort {A} (R : relation A) `{!RelDecision R}
    (l : list A) : list A :=
  foldr (insert_stable R) [] l.

(** A table scan: the rows by increasing rowid. *)
Definition asc_by {A} (id : A → Z) : relation A := λ a b, id a ≤ id b.

#[global] Instance asc_by_dec {A} (id : A → Z) : RelDecision (asc_by id).
Proof. intros a b. unfold asc_by. apply _. Defined.

Definition by_rowid {A} (id : A → Z) (rows : list A) : list A :=
  stable_sort (asc_by id) rows.

(** [ORDER BY key DESC] on a text column: binary (lexicographic) order,
    largest first. *)
Definition desc_by {A} (key : A → string) : relation A :=
  λ a b, String.le (key b) (key a).

#[global] Instance desc_by_dec {A} (key : A → string) :
  RelDecision (desc_by key).
Proof. intros a b. unfold desc_by. apply _. Defined.

Definition order_by_desc {A} (key : A → string) (rows : list A) : list A :=
  stable_sort (desc_by key) rows.

(** [SELECT * FROM appointments WHERE user_id = ? ORDER BY created_at DESC];
    a [NULL] parameter selects nothing. *)
Definition list_for_owner (uid : option Z) (d : database) : list appointment :=
  match uid with
  | None => []
  | Some u =>
      order_by_desc appt_created_at
        (filter (λ a, appt_user_id a = Some u)
           (by_rowid appt_id (appointments d)))
  end.

(** [SELECT r.*, u.email AS user_email FROM reviews r LEFT JOIN users u
    ON r.user_id = u.id ORDER BY r.created_at DESC]. *)
Definition list_all (d : database) : list (review * option string) :=
  (λ r, (r, user_email <$> get_user_by_id (review_user_id r) d))
    <$> order_by_desc review_created_at (by_rowid review_id (reviews_table d)).

(** ** Session, requests and responses *)

(** The signed session cookie. The application writes three keys:
    ["user_id"], ["user_name"] and Flask's flash queue (pairs of category
    and message; an absent queue reads as the empty one). *)
Record session := Session {
  sess_user_id : option Z;
  sess_user_name : option string;
  sess_flashes : list (string * string)
}.

(** [session.clear()] *)
Definition session_clear (s : session) : session := Session None None [].

(** [flash(message, category)] appends to the queue kept in the session. *)
Definition flash (message category : string) (s : session) : session :=
  Session (sess_user_id s) (sess_user_name s)
          (sess_flashes s ++ [(category, message)]).

(** The two assignments of a successful login:
    [session["user_id"] = uid; session["user_name"] = name]. *)
Definition start_session (uid : Z) (name : string) (s : session) : session :=
  Session (Some uid) (Some name) (sess_flashes s).

(** [session.get("user_id")] *)
Definition resolve (s : session) : option Z := sess_user_id s.

(** [end_session] is [session.clear()]. *)
Definition end_session (s : session) : session := session_clear s.

Inductive http_method := GET | POST.

Record request := Request {
  method : http_method;
  form : gmap string string
}.

(** [request.form.get(key, "")] *)
Definition form_get (req : request) (key : string) : string :=
  default "" (form req !! key).

Inductive endpoint :=
  | UrlHome
  | UrlBook
  | UrlReviews
  | UrlRegister
  | UrlLogin.

(** A template together with the values the handler passes to it. *)
Inductive page :=
  | home_html
  | about_html
  | book_html (appts : list appointment)
  | reviews_html (revs : list (review * option string))
  | register_html
  | login_html
  | profile_html (u : option user).

Inductive response :=
  | redirect (target : endpoint)
  | render_template (p : page).

Inductive outcome :=
  | Return (r : response)
  | Raise (e : exn).

Record world := World {
  w_session : session;
  w_db : database
}.

Definition with_session (f : session → session) (w : world) : world :=
  World (f (w_session w)) (w_db w).
Definition with_db (d : database) (w : world) : world :=
  World (w_session w) d.

Definition handler := request → world → outcome * world.

(** ** Routes *)

(** The decorator [login_required]. *)
Definition login_required (f : handler) : handler := λ req w,
  match sess_user_id (w_session w) with
  | None =>
      (Return (redirect UrlLogin),
       with_session (flash "Please log in to access that page." "warning") w)
  | Some _ => f req w
  end.

Definition home : handler := λ _ w, (Return (render_template home_html), w).

Definition about : handler := λ _ w, (Return (render_template about_html), w).

Section Routes.

Context {python : Py.builtins}.

(** The body of [book], before decoration. [now] is
    [datetime.utcnow().isoformat()]. *)
Definition book_body (now : string) : handler := λ req w,
  match method req with
  | POST =>
      let name := Py.strip (form_get req "name") in
      let email := Py.strip (form_get req "email") in
      let appt_date := Py.strip (form_get req "date") in
      let appt_time := Py.strip (form_get req "time") in
      let reason := Py.strip (form_get req "reason") in
      if negb (Py.truthy name && Py.truthy email &&
               Py.truthy appt_date && Py.truthy appt_time)
      then (Return (redirect UrlBook),
            with_session (flash "Please fill all required fields." "danger") w)
      else
        let db := insert_appointment (sess_user_id (w_session w))
                    name email appt_date appt_time reason now (w_db w) in
        (Return (redirect UrlBook),
         with_session (flash "Appointment booked successfully." "success")
           (with_db db w))
  | GET =>
      (Return (render_template
                 (book_html (list_for_owner (sess_user_id (w_session w))
                                            (w_db w)))),
       w)
  end.

Definition book (now : string) : handler := login_required (book_body now).

Definition reviews (now : string) : handler := λ req w,
  match method req with
  | POST =>
      match sess_user_id (w_session w) with
      | None =>
          (Return (redirect UrlLogin),
           with_session (flash "Please log in to post a review." "warning") w)
      | Some _ =>
          let name := Py.strip (form_get req "name") in
          let rating := Py.strip (form_get req "rating") in
          let comment := Py.strip (form_get req "comment") in
          if negb (Py.truthy name && Py.truthy rating)
          then (Return (redirect UrlReviews),
                with_session
                  (flash "Please provide your name and a rating." "danger") w)
          else
            match Py.int rating with
            | None => (Raise ValueError, w)
            | Some n =>
                match insert_review (sess_user_id (w_session w))
                        name n comment now (w_db w) with
                | inl e => (Raise e, w)
                | inr db =>
                    (Return (redirect UrlReviews),
                     with_session (flash "Thanks for your review!" "success")
                       (with_db db w))
                end
            end
      end
  | GET => (Return (render_template (reviews_html (list_all (w_db w)))), w)
  end.

Definition logout : handler := λ _ w,
  (Return (redirect UrlHome),
   with_session (λ s, flash "You have been logged out." "info" (end_session s))
     w).

Definition profile : handler :=
  login_required (λ _ w,
    (Return (render_template
               (profile_html (get_user_by_id (sess_user_id (w_session w))
                                             (w_db w)))),
     w)).

(** The e-mail normalisation shared by [register] and [login]:
    [.strip().lower()]. *)
Definition normalize_email (s : string) : string := Py.lower (Py.strip s).

(** werkzeug's password hashing is a parameter of the development:
    [generate_password_hash] with the random salt made explicit, and
    [check_password_hash pwhash password]. *)
Section Auth.

Variable generate_password_hash : string → string → string.
Variable check_password_hash : string → string → bool.

Definition register (salt now : string) : handler := λ req w,
  match sess_user_id (w_session w) with
  | Some _ => (Return (redirect UrlHome), w)
  | None =>
      match method req with
      | POST =>
          let name := Py.strip (form_get req "name") in
          let email := normalize_email (form_get req "email") in
          let password := form_get req "password" in
          if negb (Py.truthy name && Py.truthy email && Py.truthy password)
          then (Return (redirect UrlRegister),
                with_session (flash "Please fill all fields." "danger") w)
          else
            match get_user_by_email email (w_db w) with
            | Some _ =>
                (Return (redirect UrlRegister),
                 with_session
                   (flash "An account with that email already exists."
                          "warning") w)
            | None =>
                let password_hash := generate_password_hash salt password in
                match insert_user name email password_hash now (w_db w) with
                | inl e => (Raise e, w)
                | inr db =>
                    (Return (redirect UrlLogin),
                     with_session
                       (flash "Registration successful. Please log in."
                              "success")
                       (with_db db w))
                end
            end
      | GET => (Return (render_template register_html), w)
      end
  end.

Definition login : handler := λ req w,
  match sess_user_id (w_session w) with
  | Some _ => (Return (redirect UrlHome), w)
  | None =>
      match method req with
      | POST =>
          let email := normalize_email (form_get req "email") in
          let password := form_get req "password" in
          match get_user_by_email email (w_db w) with
          | Some user =>
              if check_password_hash (user_password_hash user) password
              then
                (Return (redirect UrlHome),
                 with_session
                   (λ s, flash ("Welcome back, " +:+ user_name user +:+ "!")
                               "success"
                               (start_session (user_id user) (user_name user) s))
                   w)
              else
                (Return (redirect UrlLogin),
                 with_session (flash "Invalid email or password." "danger") w)
          | None =>
              (Return (redirect UrlLogin),
               with_session (flash "Invalid email or password." "danger") w)
          end
      | GET => (Return (render_template login_html), w)
      end
  end.

End Auth.

End Routes.

(** A concrete, salt-free hashing scheme, only used to run the routes on
    examples. *)
Definition demo_generate (salt password : string) : string :=
  "demo$" +:+ password.
Definition demo_check (pwhash password : string) : bool :=
  String.eqb pwhash ("demo$" +:+ password).

(** ** Vocabulary of the properties *)

(** The fields [book] and [reviews] insist on. *)
Definition book_required : list string := ["name"; "email"; "date"; "time"].
Definition reviews_required : list string := ["name"; "rating"].

Section Fields.

Context {python : Py.builtins}.

(** Some field of [keys] is empty once stripped. *)
Definition missing_field (keys : list string) (req : request) : bool :=
  existsb (λ k, negb (Py.truthy (Py.strip (form_get req k)))) keys.

(** The filled-in fields of a registration form. *)
Definition register_filled (req : request) : bool :=
  Py.truthy (Py.strip (form_get req "name")) &&
  Py.truthy (normalize_email (form_get req "email")) &&
  Py.truthy (form_get req "password").

End Fields.

(** The form of a review signed ["Bob"] with the given rating. *)
Definition review_form (rating : string) : request :=
  Request POST (<["name" := "Bob"]> {["rating" := rating]}).

(** The answer of a guard that turns the request away. *)
Definition denied (message : string) (w : world) : outcome * world :=
  (Return (redirect UrlLogin), with_session (flash message "warning") w).

(** The answer to a form that fails validation: back to the form, with
    an advisory message, the database as it was. *)
Definition invalid (back : endpoint) (message : string) (w : world)
  : outcome * world :=
  (Return (redirect back), with_session (flash message "danger") w).

(** ** The application as a whole *)

(** The view functions registered with [app.route]. *)
Inductive route :=
  | RHome
  | RAbout
  | RBook
  | RReviews
  | RRegister
  | RLogin
  | RLogout
  | RProfile.

#[global] Instance http_method_eq_dec : EqDecision http_method.
Proof. solve_decision. Defined.

(** The [methods] argument of each [app.route]; a rule without it
    answers GET only. HEAD and OPTIONS, which Flask serves on its own
    account, are outside the model. *)
Definition methods (r : route) : list http_method :=
  match r with
  | RBook | RReviews | RRegister | RLogin => [GET; POST]
  | RHome | RAbout | RLogout | RProfile => [GET]
  end.

(** What a request draws from outside the program: the salt of the
    password hash and the reading of the clock. *)
Record env := Env {
  env_salt : string;
  env_now : string
}.

(** The answer of the application to a routed request: the outcome of
    the view, or the 405 of a method the rule does not list. *)
Inductive served :=
  | Served (o : outcome)
  | MethodNotAllowed.

Section App.

Context {python : Py.builtins}.

Variable generate_password_hash : string → string → string.
Variable check_password_hash : string → string → bool.

Definition view (r : route) (e : env) : handler :=
  match r with
  | RHome => home
  | RAbout => about
  | RBook => book (env_now e)
  | RReviews => reviews (env_now e)
  | RRegister => register generate_password_hash (env_salt e) (env_now e)
  | RLogin => login check_password_hash
  | RLogout => logout
  | RProfile => profile
  end.

Definition serve (r : route) (e : env) (req : request) (w : world)
  : served * world :=
  if bool_decide (method req ∈ methods r)
  then (Served (view r e req w).1, (view r e req w).2)
  else (MethodNotAllowed, w).

(** The requests of one browser, served one after the other. *)
Definition run (trace : list (route * env * request)) (w : world) : world :=
  foldl (λ w' x, (serve x.1.1 x.1.2 x.2 w').2) w trace.

(** A well-formed credential row: a stripped, non-empty name; a stripped,
    lower-case, non-empty address; a hash made by
    [generate_password_hash] from a non-empty password. *)
Definition user_ok (u : user) : Prop :=
  user_name u ≠ "" ∧ Py.strip (user_name u) = user_name u ∧
  user_email u ≠ "" ∧ normalize_email (user_email u) = user_email u ∧
  ∃ salt password : string,
    password ≠ "" ∧
    user_password_hash u = generate_password_hash salt password.

Definition users_ok (d : database) : Prop :=
  NoDup (user_email <$> users d) ∧ Forall user_ok (users d).

End App.

(** The world before the first request: empty tables, empty cookie. *)
Definition fresh_world : world :=
  World (Session None None []) (Database [] [] []).

(** Ids grow along a table and start at 1. *)
Definition ids_ok {A} (id : A → Z) (rows : list A) : Prop :=
  StronglySorted Z.lt (id <$> rows) ∧ Forall (λ r, 1 ≤ id r) rows.

Definition db_ids_ok (d : database) : Prop :=
  ids_ok user_id (users d) ∧ ids_ok appt_id (appointments d) ∧
  ids_ok review_id (reviews_table d).

(** An owner column that names a stored user. *)
Definition owned_by_user (d : database) (o : option Z) : Prop :=
  ∃ u : user, u ∈ users d ∧ o = Some (user_id u).

Definition owners_ok (d : database) : Prop :=
  Forall (λ a, owned_by_user d (appt_user_id a)) (appointments d) ∧
  Forall (λ r, owned_by_user d (review_user_id r)) (reviews_table d).

(** A session that agrees with the credential store: it names nobody,
    or it names a stored user together with that user's name. *)
Definition sess_ok (s : session) (d : database) : Prop :=
  match sess_user_id s with
  | None => sess_user_name s = None
  | Some i =>
      ∃ u : user,
        u ∈ users d ∧ user_id u = i ∧ sess_user_name s = Some (user_name u)
  end.

(** [d'] holds the rows of [d], in place, followed by new ones. *)
Definition db_extends (d d' : database) : Prop :=
  users d `prefix_of` users d' ∧
  appointments d `prefix_of` appointments d' ∧
  reviews_table d `prefix_of` reviews_table d'.

Definition row_count (d : database) : nat :=
  (length (users d) + length (appointments d) + length (reviews_table d))%nat.

(** ** The database file and [init_db] *)

(** The SQLite file: each of the three tables is there or not. *)
Record db_file := DbFile {
  file_users : option (list user);
  file_appointments : option (list appointment);
  file_reviews : option (list review)
}.

(** [CREATE TABLE IF NOT EXISTS] *)
Definition create_table_if_not_exists {A} (t : option (list A))
  : option (list A) :=
  match t with
  | Some rows => Some rows
  | None => Some []
  end.

Definition init_db (f : db_file) : db_file :=
  DbFile (create_table_if_not_exists (file_users f))
         (create_table_if_not_exists (file_appointments f))
         (create_table_if_not_exists (file_reviews f)).

(** The tables as the routes see them; a missing table makes every
    statement on it fail. *)
Definition open_database (f : db_file) : option database :=
  us ← file_users f; ap ← file_appointments f; rv ← file_reviews f;
  Some (Database us ap rv).

(** ** The connection of a request: [get_db] and [close_connection] *)






(** ** Sample data for concrete runs *)

Definition alice : user :=
  User 1 "Alice" "a@x.com" "demo$pw123" "2024-01-01T09:00:00".

Definition alice_db : database :=
  Database [alice]
    [Appointment 1 (Some 1) "Alice" "a@x.com" "2024-01-05" "10:00" "checkup"
       "2024-01-01T09:05:00"]
    [Review 1 (Some 1) "Alice" 5 "Great" "2024-01-01T09:10:00"].

(** Alice logged in, and a visitor, over the same database. *)
Definition alice_in : world :=
  World (Session (Some 1) (Some "Alice") []) alice_db.
Definition visitor : world :=
  World (Session None None []) alice_db.

Definition sample_env : env := Env "s1" "2024-01-02T10:00:00".

(** A registration form, a login form, a booking form. *)
Definition register_form (name email password : string) : request :=
  Request POST (<["name" := name]> (<["email" := email]>
    {["password" := password]})).
Definition login_form (email password : string) : request :=
  Request POST (<["email" := email]> {["password" := password]}).
Definition booking_form (name email date time : string) : request :=
  Request POST (<["name" := name]> (<["email" := email]>
    (<["date" := date]> {["time" := time]}))).


(** ** The implementation obeys the laws of the built-ins *)

Section DropSpaces.

Variable p1 : ascii → bool.
Variable p2 : ascii → ascii → bool.
Variable p3 : ascii → ascii → ascii → bool.

Lemma drop_spaces_ind (P : list ascii → Prop) :
  (∀ l, Text.starts_space p1 p2 p3 l = false → P l) →
  (∀ a l, p1 a = true → P l → P (a :: l)) →
  (∀ a b l, p1 a = false → p2 a b = true → P l → P (a :: b :: l)) →
  (∀ a b c l, p1 a = false → p2 a b = false → p3 a b c = true →
              P l → P (a :: b :: c :: l)) →
  ∀ l, P l.
Proof.
  intros H0 H1 H2 H3 l.
  remember (length l) as n eqn:Hn.
  revert l Hn. induction n as [n IH] using lt_wf_ind. intros l Hn.
  destruct l as [|a [|b [|c l]]]; simpl in *.
  - by apply H0.
  - destruct (p1 a) eqn:Ha.
    + apply H1; [done|]. by apply H0.
    + apply H0. simpl. by rewrite Ha.
  - destruct (p1 a) eqn:Ha.
    + apply H1; [done|]. eapply IH; [|done]. simpl. lia.
    + destruct (p2 a b) eqn:Hb.
      * apply H2; [done..|]. by apply H0.
      * apply H0. simpl. by rewrite Ha, Hb.
  - destruct (p1 a) eqn:Ha.
    + apply H1; [done|]. eapply IH; [|done]. simpl. lia.
    + destruct (p2 a b) eqn:Hb.
      * apply H2; [done..|]. eapply IH; [|done]. simpl. lia.
      * destruct (p3 a b c) eqn:Hc.
        -- apply H3; [done..|]. eapply IH; [|done]. simpl. lia.
        -- apply H0. simpl. by rewrite Ha, Hb, Hc.
Qed.

Lemma drop_spaces_fix l :
  Text.starts_space p1 p2 p3 l = false → Text.drop_spaces p1 p2 p3 l = l.
Proof.
  destruct l as [|a [|b [|c l]]]; simpl; try done.
  - by intros ->%orb_false_elim%proj1.
  - intros [-> [-> _]%orb_false_elim]%orb_false_elim. done.
  - intros [-> [-> ->]%orb_false_elim]%orb_false_elim. done.
Qed.

Lemma drop_spaces_cons1 a l :
  p1 a = true →
  Text.drop_spaces p1 p2 p3 (a :: l) = Text.drop_spaces p1 p2 p3 l.
Proof. intros Ha. simpl. by rewrite Ha. Qed.

Lemma drop_spaces_cons2 a b l :
  p1 a = false → p2 a b = true →
  Text.drop_spaces p1 p2 p3 (a :: b :: l) = Text.drop_spaces p1 p2 p3 l.
Proof. intros Ha Hb. simpl. by rewrite Ha, Hb. Qed.

Lemma drop_spaces_cons3 a b c l :
  p1 a = false → p2 a b = false → p3 a b c = true →
  Text.drop_spaces p1 p2 p3 (a :: b :: c :: l)
  = Text.drop_spaces p1 p2 p3 l.
Proof. intros Ha Hb Hc. simpl. by rewrite Ha, Hb, Hc. Qed.

Lemma drop_spaces_done l :
  Text.starts_space p1 p2 p3 (Text.drop_spaces p1 p2 p3 l) = false.
Proof.
  induction l as [l H|a l Ha IH|a b l Ha Hb IH|a b c l Ha Hb Hc IH]
    using drop_spaces_ind.
  - by rewrite drop_spaces_fix.
  - by rewrite drop_spaces_cons1.
  - by rewrite drop_spaces_cons2.
  - by rewrite drop_spaces_cons3.
Qed.

Lemma drop_spaces_idempotent l :
  Text.drop_spaces p1 p2 p3 (Text.drop_spaces p1 p2 p3 l)
  = Text.drop_spaces p1 p2 p3 l.
Proof. apply drop_spaces_fix, drop_spaces_done. Qed.

Lemma drop_spaces_suffix l :
  ∃ k, l = (k ++ Text.drop_spaces p1 p2 p3 l)%list.
Proof.
  induction l as [l H|a l Ha [k IH]|a b l Ha Hb [k IH]
                  |a b c l Ha Hb Hc [k IH]] using drop_spaces_ind.
  - exists []. by rewrite drop_spaces_fix.
  - exists (a :: k). rewrite drop_spaces_cons1 by done. simpl. by f_equal.
  - exists (a :: b :: k). rewrite drop_spaces_cons2 by done.
    simpl. by do 2 f_equal.
  - exists (a :: b :: c :: k). rewrite drop_spaces_cons3 by done.
    simpl. by do 3 f_equal.
Qed.

Lemma starts_space_app l k :
  Text.starts_space p1 p2 p3 l = true →
  Text.starts_space p1 p2 p3 (l ++ k)%list = true.
Proof.
  destruct l as [|a [|b [|c l]]]; simpl; try done.
  - rewrite orb_false_r. by intros ->.
  - rewrite orb_false_r. intros [->| ->]%orb_true_iff; [done|].
    by rewrite orb_true_r.
Qed.

(** One test is unchanged by a map on bytes that the three tests do not
    see. *)
Lemma drop_spaces_map (g : ascii → ascii) l :
  (∀ a, p1 (g a) = p1 a) →
  (∀ a b, p2 (g a) (g b) = p2 a b) →
  (∀ a b c, p3 (g a) (g b) (g c) = p3 a b c) →
  Text.drop_spaces p1 p2 p3 (g <$> l) = g <$> Text.drop_spaces p1 p2 p3 l.
Proof.
  intros G1 G2 G3.
  induction l as [l H|a l Ha IH|a b l Ha Hb IH|a b c l Ha Hb Hc IH]
    using drop_spaces_ind.
  - rewrite (drop_spaces_fix l H). apply drop_spaces_fix.
    destruct l as [|a [|b [|c l]]]; simpl in *;
      by rewrite ?G1, ?G2, ?G3.
  - rewrite (drop_spaces_cons1 a l Ha), fmap_cons.
    by rewrite drop_spaces_cons1 by (by rewrite G1).
  - rewrite (drop_spaces_cons2 a b l Ha Hb), !fmap_cons.
    by rewrite drop_spaces_cons2 by (by rewrite ?G1, ?G2).
  - rewrite (drop_spaces_cons3 a b c l Ha Hb Hc), !fmap_cons.
    by rewrite drop_spaces_cons3 by (by rewrite ?G1, ?G2, ?G3).
Qed.

End DropSpaces.

Ltac by_bytes a := by destruct a as [[] [] [] [] [] [] [] []].

Lemma text_rstrip_prefix l : ∃ k, l = (Text.rstrip l ++ k)%list.
Proof.
  unfold Text.rstrip.
  destruct (drop_spaces_suffix Text.space1 (λ b a, Text.space2 a b)
              (λ c b a, Text.space3 a b c) (reverse l)) as [k Hk].
  exists (reverse k).
  rewrite <- reverse_app, <- Hk. by rewrite reverse_involutive.
Qed.

Lemma text_rstrip_idempotent l : Text.rstrip (Text.rstrip l) = Text.rstrip l.
Proof.
  unfold Text.rstrip.
  by rewrite reverse_involutive, drop_spaces_idempotent.
Qed.

Lemma text_lstrip_rstrip l :
  Text.starts_space Text.space1 Text.space2 Text.space3 l = false →
  Text.lstrip (Text.rstrip l) = Text.rstrip l.
Proof.
  intros Hl. apply drop_spaces_fix.
  destruct (Text.starts_space _ _ _ (Text.rstrip l)) eqn:Hr; [|done].
  destruct (text_rstrip_prefix l) as [k Hk].
  apply (starts_space_app _ _ _ _ k) in Hr. rewrite <- Hk in Hr. congruence.
Qed.

Lemma text_strip_idempotent s : Text.strip (Text.strip s) = Text.strip s.
Proof.
  unfold Text.strip. rewrite list_ascii_of_string_of_list_ascii.
  rewrite text_lstrip_rstrip by apply drop_spaces_done.
  by rewrite text_rstrip_idempotent.
Qed.

Lemma lower_char_byte a :
  N_of_ascii (Text.lower_char a) = N_of_ascii a ∨
  (65 ≤ N_of_ascii a ≤ 90 ∧
   N_of_ascii (Text.lower_char a) = N_of_ascii a + 32)%N.
Proof.
  destruct a as [[] [] [] [] [] [] [] []]; vm_compute;
    first [by left | right; repeat split; discriminate].
Qed.

Lemma byte_is_lower k a :
  (k < 65 ∨ 122 < k)%N →
  Text.byte_is k (Text.lower_char a) = Text.byte_is k a.
Proof.
  intros Hk. unfold Text.byte_is.
  destruct (lower_char_byte a) as [->|[Ha ->]]; [done|].
  destruct (N.eqb_spec (N_of_ascii a + 32) k), (N.eqb_spec (N_of_ascii a) k);
    (done || lia).
Qed.

Lemma byte_in_lower lo hi a :
  (hi < 65 ∨ 122 < lo)%N →
  Text.byte_in lo hi (Text.lower_char a) = Text.byte_in lo hi a.
Proof.
  intros Hk. unfold Text.byte_in.
  destruct (lower_char_byte a) as [->|[Ha ->]]; [done|].
  apply eq_true_iff_eq. rewrite !andb_true_iff, !N.leb_le. lia.
Qed.

Lemma space1_lower a : Text.space1 (Text.lower_char a) = Text.space1 a.
Proof. unfold Text.space1. rewrite !byte_in_lower by lia. done. Qed.

Lemma space2_lower a b :
  Text.space2 (Text.lower_char a) (Text.lower_char b) = Text.space2 a b.
Proof. unfold Text.space2. rewrite !byte_is_lower by lia. done. Qed.

Lemma space3_lower a b c :
  Text.space3 (Text.lower_char a) (Text.lower_char b) (Text.lower_char c)
  = Text.space3 a b c.
Proof.
  unfold Text.space3.
  rewrite !byte_is_lower by lia. rewrite !byte_in_lower by lia. done.
Qed.

Lemma lower_char_idempotent a :
  Text.lower_char (Text.lower_char a) = Text.lower_char a.
Proof. by_bytes a. Qed.

Lemma text_lower_idempotent s : Text.lower (Text.lower s) = Text.lower s.
Proof.
  induction s as [|c s IH]; simpl; [done|].
  by rewrite lower_char_idempotent, IH.
Qed.

Lemma bytes_lower s :
  list_ascii_of_string (Text.lower s)
  = Text.lower_char <$> list_ascii_of_string s.
Proof. induction s as [|c s IH]; simpl; [done|]. by rewrite IH. Qed.

Lemma lower_of_bytes l :
  Text.lower (string_of_list_ascii l)
  = string_of_list_ascii (Text.lower_char <$> l).
Proof. induction l as [|c l IH]; simpl; [done|]. by rewrite IH. Qed.

Lemma text_strip_lower s :
  Text.strip (Text.lower s) = Text.lower (Text.strip s).
Proof.
  unfold Text.strip, Text.rstrip, Text.lstrip.
  rewrite lower_of_bytes, bytes_lower.
  rewrite drop_spaces_map
    by auto using space1_lower, space2_lower, space3_lower.
  rewrite <- fmap_reverse.
  rewrite drop_spaces_map
    by auto using space1_lower, space2_lower, space3_lower.
  by rewrite fmap_reverse.
Qed.

Lemma text_normalize_idempotent s :
  Text.lower (Text.strip (Text.lower (Text.strip s)))
  = Text.lower (Text.strip s).
Proof.
  by rewrite text_strip_lower, text_strip_idempotent, text_lower_idempotent.
Qed.

Lemma bytes_append a b :
  list_ascii_of_string (a +:+ b)
  = (list_ascii_of_string a ++ list_ascii_of_string b)%list.
Proof.
  induction a as [|c a IH]; [done|].
  change (String c a +:+ b) with (String c (a +:+ b)). simpl. by rewrite IH.
Qed.

Lemma text_lstrip_whitespace c r :
  c ∈ Py.whitespace →
  Text.lstrip (list_ascii_of_string (Py.chr c +:+ r))
  = Text.lstrip (list_ascii_of_string r).
Proof.
  intros Hc. rewrite bytes_append. unfold Text.lstrip, Py.whitespace in *.
  repeat (apply elem_of_cons in Hc as [->|Hc]);
    [..|by apply elem_of_nil in Hc];
    match goal with
    | |- context [list_ascii_of_string (Py.chr ?c)] =>
        let l := eval vm_compute in (list_ascii_of_string (Py.chr c)) in
        change (list_ascii_of_string (Py.chr c)) with l
    end;
    cbn [app];
    first [ apply drop_spaces_cons1; vm_compute; reflexivity
          | apply drop_spaces_cons2; vm_compute; reflexivity
          | apply drop_spaces_cons3; vm_compute; reflexivity ].
Qed.

Lemma text_strip_blank v : Py.blank v → Text.strip v = "".
Proof.
  intros (cs & Hcs & ->). unfold Text.strip.
  assert (Text.lstrip (list_ascii_of_string (Py.text cs)) = []) as ->; [|done].
  induction Hcs as [|c cs Hc Hcs IH]; [done|].
  simpl. by rewrite text_lstrip_whitespace.
Qed.

(** * Properties of the routes, for every implementation of the built-ins *)

Section Generic.

Context {python : Py.builtins}.

(** ** Forms *)

Lemma form_get_delete m f k k' :
  form_get (Request m (delete k f)) k' =
  if decide (k = k') then "" else form_get (Request m f) k'.
Proof.
  unfold form_get; simpl. case_decide as Hk.
  - subst. by rewrite lookup_delete_eq.
  - by rewrite lookup_delete_ne.
Qed.

Lemma form_get_insert m f k v k' :
  form_get (Request m (<[k:=v]> f)) k' =
  if decide (k = k') then v else form_get (Request m f) k'.
Proof.
  unfold form_get; simpl. case_decide as Hk.
  - subst. by rewrite lookup_insert_eq.
  - by rewrite lookup_insert_ne.
Qed.

(** Once stripped, a field left out and the same field filled with
    whitespace read the same, whichever field is looked at. *)
Lemma blank_empty : Py.blank "".
Proof. by exists []. Qed.

(** ** Tables *)

Lemma find_none_existsb {A} (p : A → bool) l :
  find p l = None → existsb p l = false.
Proof.
  induction l as [|x l IH]; simpl; [done|].
  destruct (p x); [done|]. auto.
Qed.

Lemma find_snoc_fresh {A} (p : A → bool) l x :
  find p l = None → p x = true → find p (l ++ [x]) = Some x.
Proof.
  induction l as [|y l IH]; simpl; intros Hl Hx.
  - by rewrite Hx.
  - destruct (p y); [done|]. auto.
Qed.

Lemma insert_user_fresh name email hash now d :
  get_user_by_email email d = None →
  insert_user name email hash now d =
  inr (set_users
         (users d ++ [User (next_id user_id (users d)) name email hash now]) d).
Proof.
  intros H. unfold insert_user.
  by rewrite (find_none_existsb _ _ H).
Qed.

#[global] Instance desc_by_trans {A} (key : A → string) :
  Transitive (desc_by key).
Proof. intros a b c Hab Hbc. unfold desc_by in *. by etrans. Qed.

#[global] Instance desc_by_total {A} (key : A → string) : Total (desc_by key).
Proof. intros a b. unfold desc_by. apply (total String.le). Qed.

#[global] Instance asc_by_trans {A} (id : A → Z) : Transitive (asc_by id).
Proof. intros a b c Hab Hbc. unfold asc_by in *. lia. Qed.

#[global] Instance asc_by_total {A} (id : A → Z) : Total (asc_by id).
Proof. intros a b. unfold asc_by. lia. Qed.

Section StableSort.

Context {A} (R : relation A) `{!RelDecision R}.

Lemma insert_stable_perm x l : insert_stable R x l ≡ₚ x :: l.
Proof.
  induction l as [|y l IH]; simpl; [done|].
  case_decide; [done|]. rewrite IH. apply Permutation_swap.
Qed.

Lemma stable_sort_perm l : stable_sort R l ≡ₚ l.
Proof.
  unfold stable_sort. induction l as [|x l IH]; simpl; [done|].
  by rewrite insert_stable_perm, IH.
Qed.

Lemma insert_stable_head x l :
  Forall (R x) l → insert_stable R x l = x :: l.
Proof. destruct 1; simpl; [done|]. by rewrite decide_True. Qed.

Context `{!Transitive R, !Total R}.

Lemma insert_stable_sorted x l :
  StronglySorted R l → StronglySorted R (insert_stable R x l).
Proof.
  induction 1 as [|y l Hl IH Hy]; simpl; [by repeat constructor|].
  case_decide as Hxy.
  - constructor; [by constructor|]. constructor; [done|].
    eapply Forall_impl; [exact Hy|]. intros z Hz. by etrans.
  - constructor; [done|]. rewrite insert_stable_perm.
    constructor; [|done]. by destruct (total R x y).
Qed.

Lemma stable_sort_sorted l : StronglySorted R (stable_sort R l).
Proof.
  unfold stable_sort. induction l as [|x l IH]; simpl; [constructor|].
  by apply insert_stable_sorted.
Qed.

Lemma insert_stable_filter (P : A → Prop) `{!∀ x, Decision (P x)} x l :
  StronglySorted R l →
  filter P (insert_stable R x l)
  = if decide (P x) then insert_stable R x (filter P l) else filter P l.
Proof.
  induction 1 as [|y l Hl IH Hy]; simpl.
  - rewrite filter_cons, filter_nil. by case_decide.
  - destruct (decide (R x y)) as [Hxy|Hxy].
    + rewrite (filter_cons _ x). destruct (decide (P x)) as [Hx|Hx]; [|done].
      rewrite insert_stable_head; [done|].
      apply Forall_forall. intros z [_ Hz]%list_elem_of_filter.
      apply elem_of_cons in Hz as [->|Hz]; [done|].
      etrans; [exact Hxy|]. by apply (proj1 (Forall_forall _ _) Hy).
    + rewrite (filter_cons _ y), IH, (filter_cons _ y).
      destruct (decide (P x)), (decide (P y)); simpl; try done.
      by rewrite decide_False.
Qed.

(** Selecting rows and sorting them commute: the sorter never changes
    the order of two rows for the sake of a third. *)
Lemma stable_sort_filter (P : A → Prop) `{!∀ x, Decision (P x)} l :
  filter P (stable_sort R l) = stable_sort R (filter P l).
Proof.
  unfold stable_sort. induction l as [|x l IH]; simpl; [done|].
  rewrite insert_stable_filter by apply stable_sort_sorted.
  rewrite filter_cons. case_decide; simpl; by rewrite IH.
Qed.

End StableSort.

Lemma order_by_desc_perm {A} (key : A → string) rows :
  order_by_desc key rows ≡ₚ rows.
Proof. apply stable_sort_perm. Qed.

Lemma order_by_desc_sorted {A} (key : A → string) rows :
  StronglySorted (desc_by key) (order_by_desc key rows).
Proof. apply stable_sort_sorted; apply _. Qed.

Lemma by_rowid_perm {A} (id : A → Z) rows : by_rowid id rows ≡ₚ rows.
Proof. apply stable_sort_perm. Qed.

(** ** Session authority *)


(** ** Request gate *)

Lemma login_required_anonymous f req w :
  sess_user_id (w_session w) = None →
  login_required f req w = denied "Please log in to access that page." w.
Proof. intros H. unfold login_required. by rewrite H. Qed.

Lemma login_required_logged_in f req w uid :
  sess_user_id (w_session w) = Some uid →
  login_required f req w = f req w.
Proof. intros H. unfold login_required. by rewrite H. Qed.

(** C8. Without a logged-in user in the session, booking (either
    method), the profile page and the posting of a review all answer with
    a redirect to the login page and a warning; the handler behind the
    gate does not run: the database is the one of before and the session
    still names nobody. *)
Theorem gate_denies_anonymous (now : string) (req : request)
    (f : gmap string string) (w : world) :
  sess_user_id (w_session w) = None →
  book now req w = denied "Please log in to access that page." w ∧
  profile req w = denied "Please log in to access that page." w ∧
  reviews now (Request POST f) w = denied "Please log in to post a review." w ∧
  (∀ message : string,
     (denied message w).1 = Return (redirect UrlLogin) ∧
     sess_flashes (w_session (denied message w).2)
       = (sess_flashes (w_session w) ++ [("warning", message)])%list ∧
     w_db (denied message w).2 = w_db w ∧
     resolve (w_session (denied message w).2) = None).
Proof.
  intros Hanon. split_and!.
  - by apply login_required_anonymous.
  - by apply login_required_anonymous.
  - unfold reviews; simpl. by rewrite Hanon.
  - intros message. split_and!; try done.
Qed.

(** ** Record repositories: validation *)

Lemma book_post_missing now req w uid :
  method req = POST →
  sess_user_id (w_session w) = Some uid →
  missing_field book_required req = true →
  book now req w = invalid UrlBook "Please fill all required fields." w.
Proof.
  intros Hm Hs Hmiss. unfold book.
  rewrite (login_required_logged_in _ _ _ _ Hs).
  unfold book_body. rewrite Hm. cbv zeta.
  unfold missing_field, book_required in Hmiss. simpl in Hmiss.
  destruct (Py.truthy (Py.strip (form_get req "name")));
    destruct (Py.truthy (Py.strip (form_get req "email")));
    destruct (Py.truthy (Py.strip (form_get req "date")));
    destruct (Py.truthy (Py.strip (form_get req "time")));
    simpl in *; done.
Qed.

Lemma book_post_complete now req w uid :
  method req = POST →
  sess_user_id (w_session w) = Some uid →
  missing_field book_required req = false →
  book now req w =
  (Return (redirect UrlBook),
   with_session (flash "Appointment booked successfully." "success")
     (with_db (insert_appointment (Some uid)
                 (Py.strip (form_get req "name"))
                 (Py.strip (form_get req "email"))
                 (Py.strip (form_get req "date"))
                 (Py.strip (form_get req "time"))
                 (Py.strip (form_get req "reason")) now (w_db w)) w)).
Proof.
  intros Hm Hs Hmiss. unfold book.
  rewrite (login_required_logged_in _ _ _ _ Hs).
  unfold book_body. rewrite Hm, Hs. cbv zeta.
  unfold missing_field, book_required in Hmiss. simpl in Hmiss.
  destruct (Py.truthy (Py.strip (form_get req "name")));
    destruct (Py.truthy (Py.strip (form_get req "email")));
    destruct (Py.truthy (Py.strip (form_get req "date")));
    destruct (Py.truthy (Py.strip (form_get req "time")));
    simpl in *; done.
Qed.

Lemma reviews_post_missing now req w uid :
  method req = POST →
  sess_user_id (w_session w) = Some uid →
  missing_field reviews_required req = true →
  reviews now req w
  = invalid UrlReviews "Please provide your name and a rating." w.
Proof.
  intros Hm Hs Hmiss. unfold reviews. rewrite Hm, Hs. cbv zeta.
  unfold missing_field, reviews_required in Hmiss. simpl in Hmiss.
  destruct (Py.truthy (Py.strip (form_get req "name")));
    destruct (Py.truthy (Py.strip (form_get req "rating")));
    simpl in *; done.
Qed.

(** A rating that is filled in but is no integer literal: [int] raises,
    nothing catches the exception, and the world is left as it was. *)
Lemma reviews_post_not_integer now req w uid :
  method req = POST →
  sess_user_id (w_session w) = Some uid →
  missing_field reviews_required req = false →
  Py.int (Py.strip (form_get req "rating")) = None →
  reviews now req w = (Raise ValueError, w).
Proof.
  intros Hm Hs Hmiss Hint. unfold reviews. rewrite Hm, Hs. cbv zeta.
  unfold missing_field, reviews_required in Hmiss. simpl in Hmiss.
  destruct (Py.truthy (Py.strip (form_get req "name")));
    destruct (Py.truthy (Py.strip (form_get req "rating")));
    simpl in *; try done.
  by rewrite Hint.
Qed.

Lemma reviews_post_integer now req w uid n :
  method req = POST →
  sess_user_id (w_session w) = Some uid →
  missing_field reviews_required req = false →
  Py.int (Py.strip (form_get req "rating")) = Some n →
  sqlite_int_ok n = true →
  reviews now req w =
  (Return (redirect UrlReviews),
   with_session (flash "Thanks for your review!" "success")
     (with_db (set_reviews
                 (reviews_table (w_db w) ++
                  [Review (next_id review_id (reviews_table (w_db w)))
                          (Some uid) (Py.strip (form_get req "name")) n
                          (Py.strip (form_get req "comment")) now])
                 (w_db w)) w)).
Proof.
  intros Hm Hs Hmiss Hint Hok. unfold reviews. rewrite Hm, Hs. cbv zeta.
  unfold missing_field, reviews_required in Hmiss. simpl in Hmiss.
  destruct (Py.truthy (Py.strip (form_get req "name")));
    destruct (Py.truthy (Py.strip (form_get req "rating")));
    simpl in *; try done.
  rewrite Hint. unfold insert_review. by rewrite Hok.
Qed.

(** C5. A booking request of a logged-in user: when one of name, email,
    date and time is empty once stripped, the answer is the validation
    failure and the database is the one of before (same appointments,
    same count); otherwise the appointment is appended, whatever the
    reason field holds, absent and blank included. *)
Theorem book_requires_fields (now : string) (req : request) (w : world)
    (uid : Z) :
  method req = POST →
  sess_user_id (w_session w) = Some uid →
  if missing_field book_required req
  then book now req w = invalid UrlBook "Please fill all required fields." w ∧
       w_db (book now req w).2 = w_db w ∧
       length (appointments (w_db (book now req w).2))
       = length (appointments (w_db w))
  else (book now req w).1 = Return (redirect UrlBook) ∧
       appointments (w_db (book now req w).2)
       = (appointments (w_db w) ++
          [Appointment (next_id appt_id (appointments (w_db w))) (Some uid)
             (Py.strip (form_get req "name"))
             (Py.strip (form_get req "email"))
             (Py.strip (form_get req "date"))
             (Py.strip (form_get req "time"))
             (Py.strip (form_get req "reason")) now])%list.
Proof.
  intros Hm Hs. destruct (missing_field book_required req) eqn:Hmiss.
  - by rewrite (book_post_missing now req w uid Hm Hs Hmiss).
  - by rewrite (book_post_complete now req w uid Hm Hs Hmiss).
Qed.

(** ** Absent and blank fields *)

(** What this part asks of [strip]: a string made of whitespace
    characters only strips to the empty string. *)
Section Blank.

Hypothesis strip_blank : ∀ v : string, Py.blank v → Py.strip v = "".

(** Once stripped, a field left out and the same field filled with
    whitespace read the same, whichever field is looked at. *)
Lemma stripped_absent_blank m f k v k' :
  Py.blank v →
  Py.strip (form_get (Request m (delete k f)) k') =
  Py.strip (form_get (Request m (<[k:=v]> f)) k').
Proof.
  intros Hv. rewrite form_get_delete, form_get_insert.
  case_decide; [|done].
  by rewrite (strip_blank v Hv), (strip_blank "" blank_empty).
Qed.

Lemma missing_field_blank keys k v m f :
  k ∈ keys → Py.blank v →
  missing_field keys (Request m (<[k:=v]> f)) = true.
Proof.
  intros Hk Hv. unfold missing_field. apply existsb_exists.
  exists k. split; [by apply list_elem_of_In|].
  rewrite form_get_insert. case_decide; [|done].
  by rewrite (strip_blank v Hv).
Qed.

Lemma book_absent_blank_same now f k v w :
  Py.blank v →
  book now (Request POST (delete k f)) w
  = book now (Request POST (<[k:=v]> f)) w.
Proof.
  intros Hv. unfold book, login_required, book_body. simpl.
  by rewrite !(stripped_absent_blank POST f k v _ Hv).
Qed.

Lemma reviews_absent_blank_same now f k v w :
  Py.blank v →
  reviews now (Request POST (delete k f)) w
  = reviews now (Request POST (<[k:=v]> f)) w.
Proof.
  intros Hv. unfold reviews. simpl.
  by rewrite !(stripped_absent_blank POST f k v _ Hv).
Qed.

(** C10. For a logged-in user, a form that leaves a required field out
    and the same form with that field made of whitespace characters only
    (spaces, tabs, line ends, no-break spaces and the other characters of
    [Py.whitespace], in any number) get the same answer from [book] and
    from [reviews]: the validation failure of the route, with the
    database untouched. The one thing asked of [strip] is that it empties
    a string of whitespace. *)
Theorem absent_field_same_as_blank (now : string) (f : gmap string string)
    (kb kr v : string) (w : world) (uid : Z) :
  Py.blank v →
  kb ∈ book_required →
  kr ∈ reviews_required →
  sess_user_id (w_session w) = Some uid →
  book now (Request POST (delete kb f)) w
    = book now (Request POST (<[kb:=v]> f)) w ∧
  book now (Request POST (<[kb:=v]> f)) w
    = invalid UrlBook "Please fill all required fields." w ∧
  reviews now (Request POST (delete kr f)) w
    = reviews now (Request POST (<[kr:=v]> f)) w ∧
  reviews now (Request POST (<[kr:=v]> f)) w
    = invalid UrlReviews "Please provide your name and a rating." w ∧
  (∀ (back : endpoint) (message : string),
     w_db (invalid back message w).2 = w_db w).
Proof.
  intros Hv Hkb Hkr Hs. split_and!.
  - by apply book_absent_blank_same.
  - apply (book_post_missing now _ w uid); [done..|].
    by apply missing_field_blank.
  - by apply reviews_absent_blank_same.
  - apply (reviews_post_missing now _ w uid); [done..|].
    by apply missing_field_blank.
  - done.
Qed.

End Blank.

(** ** Record repositories: the appointment history *)

(** C6. [list_for_owner] for user [u] returns the appointments owned by
    [u] and no other: its result is a rearrangement of the owner's rows,
    holds a row exactly when the table holds it with owner [u], and runs
    from the largest creation timestamp to the smallest. It is what the
    booking page of [u] is rendered with. *)
Theorem list_for_owner_exact (u : Z) (d : database) :
  let res := list_for_owner (Some u) d in
  res ≡ₚ filter (λ a, appt_user_id a = Some u) (appointments d) ∧
  (∀ a : appointment,
     a ∈ res ↔ a ∈ appointments d ∧ appt_user_id a = Some u) ∧
  StronglySorted
    (λ a b, String.le (appt_created_at b) (appt_created_at a)) res ∧
  (∀ (now : string) (f : gmap string string) (uname : option string)
     (fl : list (string * string)),
     book now (Request GET f) (World (Session (Some u) uname fl) d)
     = (Return (render_template (book_html res)),
        World (Session (Some u) uname fl) d)).
Proof.
  intros res. subst res. unfold list_for_owner. split_and!.
  - by rewrite order_by_desc_perm, by_rowid_perm.
  - intros a.
    rewrite order_by_desc_perm, list_elem_of_filter, by_rowid_perm. tauto.
  - apply (order_by_desc_sorted appt_created_at).
  - done.
Qed.

(** ** Credential store *)

Section AuthProperties.

Variable generate_password_hash : string → string → string.
Variable check_password_hash : string → string → bool.

(** Whatever the request, [register] leaves the database alone when the
    normalised address is already taken. *)
Lemma register_taken_frame salt now req w u :
  get_user_by_email (normalize_email (form_get req "email")) (w_db w)
    = Some u →
  w_db (register generate_password_hash salt now req w).2 = w_db w.
Proof.
  intros Hdup. unfold register.
  destruct (sess_user_id (w_session w)); [done|].
  destruct (method req); [done|]. cbv zeta.
  destruct (negb _); [done|]. by rewrite Hdup.
Qed.

Lemma register_fresh salt now req w :
  method req = POST →
  sess_user_id (w_session w) = None →
  register_filled req = true →
  get_user_by_email (normalize_email (form_get req "email")) (w_db w) = None →
  register generate_password_hash salt now req w =
  (Return (redirect UrlLogin),
   with_session (flash "Registration successful. Please log in." "success")
     (with_db
        (set_users
           (users (w_db w) ++
            [User (next_id user_id (users (w_db w)))
                  (Py.strip (form_get req "name"))
                  (normalize_email (form_get req "email"))
                  (generate_password_hash salt (form_get req "password"))
                  now])
           (w_db w)) w)).
Proof.
  intros Hm Hs Hfill Hnew. unfold register.
  rewrite Hs, Hm. cbv zeta. unfold register_filled in Hfill.
  rewrite Hfill. simpl negb. cbv iota. rewrite Hnew.
  by rewrite (insert_user_fresh _ _ _ _ _ Hnew).
Qed.

(** A registration that answers with the redirect to the login page went
    through the whole handler: it was an anonymous POST with the three
    fields filled in and a fresh address. *)
Lemma register_success_inv salt now req w w1 :
  register generate_password_hash salt now req w
    = (Return (redirect UrlLogin), w1) →
  method req = POST ∧
  sess_user_id (w_session w) = None ∧
  register_filled req = true ∧
  get_user_by_email (normalize_email (form_get req "email")) (w_db w) = None.
Proof.
  unfold register, register_filled.
  destruct (sess_user_id (w_session w)); [done|].
  destruct (method req); [done|]. cbv zeta.
  destruct (_ && _ && _); simpl; [|done].
  destruct (get_user_by_email _ _); [done|].
  done.
Qed.

(** C2. An anonymous POST to [register] with the three fields filled in,
    whose address, stripped and lower-cased, is the address of a stored
    user: the answer is the duplicate-address warning with a redirect
    back to the form, and the database is the one of before, so the
    users, their number and every row of theirs are unchanged. *)
Theorem register_duplicate_email (salt now : string) (req : request)
    (w : world) (u : user) :
  method req = POST →
  sess_user_id (w_session w) = None →
  register_filled req = true →
  get_user_by_email (normalize_email (form_get req "email")) (w_db w)
    = Some u →
  register generate_password_hash salt now req w =
    (Return (redirect UrlRegister),
     with_session
       (flash "An account with that email already exists." "warning") w) ∧
  w_db (register generate_password_hash salt now req w).2 = w_db w ∧
  users (w_db (register generate_password_hash salt now req w).2)
    = users (w_db w) ∧
  length (users (w_db (register generate_password_hash salt now req w).2))
    = length (users (w_db w)).
Proof.
  intros Hm Hs Hfill Hdup.
  assert (Hdb := register_taken_frame salt now req w u Hdup).
  rewrite Hdb. split_and!; try done.
  unfold register. rewrite Hs, Hm. cbv zeta.
  unfold register_filled in Hfill. rewrite Hfill. simpl negb. cbv iota.
  by rewrite Hdup.
Qed.

(** C3. Two login attempts on the same world, one with an address that
    no user has, one with the address of a user and a password that the
    stored hash rejects: the two answers are equal in every component
    (response, session, database). For an anonymous visitor it is the
    redirect to the login page with the one message ["Invalid email or
    password."]; the database is untouched. *)
Theorem login_failures_indistinguishable (req1 req2 : request) (w : world)
    (u : user) :
  method req1 = POST →
  method req2 = POST →
  get_user_by_email (normalize_email (form_get req1 "email")) (w_db w) = None →
  get_user_by_email (normalize_email (form_get req2 "email")) (w_db w)
    = Some u →
  check_password_hash (user_password_hash u) (form_get req2 "password")
    = false →
  login check_password_hash req1 w = login check_password_hash req2 w ∧
  w_db (login check_password_hash req1 w).2 = w_db w ∧
  match sess_user_id (w_session w) with
  | None =>
      login check_password_hash req1 w
      = invalid UrlLogin "Invalid email or password." w
  | Some _ =>
      login check_password_hash req1 w = (Return (redirect UrlHome), w)
  end.
Proof.
  intros Hm1 Hm2 Hnone Hsome Hbad. unfold login.
  destruct (sess_user_id (w_session w)); [done|].
  rewrite Hm1, Hm2. cbv zeta. rewrite Hnone, Hsome, Hbad. done.
Qed.

(** C9. With a user already logged in, [register] and [login] answer any
    request, a POST with a complete form included, with the redirect to
    the home page and hand the world back as it is: same users, same
    session. *)
Theorem auth_routes_idle_when_logged_in (salt now : string) (req : request)
    (w : world) (uid : Z) :
  sess_user_id (w_session w) = Some uid →
  register generate_password_hash salt now req w
    = (Return (redirect UrlHome), w) ∧
  login check_password_hash req w = (Return (redirect UrlHome), w).
Proof.
  intros Hs. unfold register, login. by rewrite Hs.
Qed.

Hypothesis check_generate :
  ∀ salt password : string,
    check_password_hash (generate_password_hash salt password) password = true.

(** C4, as amended. If [register] succeeds on a form, it has appended one
    user [u], whose identity is the fresh id and whose address is the
    normalised one; then a login POST carrying the same password and an
    address with the same normal form under [.strip().lower()] succeeds:
    it redirects to the home page and the session it leaves resolves to
    the identity of [u]. *)
Theorem register_then_login (salt now : string) (req req' : request)
    (w w1 : world) :
  register generate_password_hash salt now req w
    = (Return (redirect UrlLogin), w1) →
  method req' = POST →
  normalize_email (form_get req' "email")
    = normalize_email (form_get req "email") →
  form_get req' "password" = form_get req "password" →
  ∃ u : user,
    users (w_db w1) = (users (w_db w) ++ [u])%list ∧
    user_id u = next_id user_id (users (w_db w)) ∧
    user_email u = normalize_email (form_get req "email") ∧
    login check_password_hash req' w1 =
      (Return (redirect UrlHome),
       with_session
         (λ s, flash ("Welcome back, " +:+ user_name u +:+ "!") "success"
                 (start_session (user_id u) (user_name u) s))
         w1) ∧
    resolve (w_session (login check_password_hash req' w1).2)
      = Some (user_id u).
Proof.
  intros Hreg Hm' Hmail Hpw.
  destruct (register_success_inv _ _ _ _ _ Hreg) as (Hm & Hs & Hfill & Hnew).
  rewrite (register_fresh salt now req w Hm Hs Hfill Hnew) in Hreg.
  injection Hreg as <-.
  eexists. split; [reflexivity|]. split; [reflexivity|].
  split; [reflexivity|].
  assert (Hlogin : ∀ w', w' = with_session
             (flash "Registration successful. Please log in." "success")
             (with_db
                (set_users
                   (users (w_db w) ++
                    [User (next_id user_id (users (w_db w)))
                       (Py.strip (form_get req "name"))
                       (normalize_email (form_get req "email"))
                       (generate_password_hash salt (form_get req "password"))
                       now])
                   (w_db w)) w) →
           login check_password_hash req' w' =
           (Return (redirect UrlHome),
            with_session
              (λ s, flash ("Welcome back, " +:+ Py.strip (form_get req "name")
                           +:+ "!") "success"
                      (start_session (next_id user_id (users (w_db w)))
                         (Py.strip (form_get req "name")) s))
              w')).
  { intros w' ->. unfold login. simpl. rewrite Hs, Hm'. cbv zeta.
    rewrite Hmail, Hpw. unfold get_user_by_email. simpl.
    rewrite (find_snoc_fresh _ _ _ Hnew) by (simpl; apply String.eqb_refl).
    simpl. by rewrite check_generate. }
  split.
  - by apply Hlogin.
  - by rewrite (Hlogin _ eq_refl).
Qed.

End AuthProperties.

(** * Further properties of the application *)

Lemma truthy_nonempty s : Py.truthy s = true ↔ s ≠ "".
Proof. destruct s; simpl; split; congruence. Qed.

(** ** Ids and lookups *)

Lemma next_id_above {A} (id : A → Z) rows :
  1 ≤ next_id id rows ∧ Forall (λ r, id r < next_id id rows) rows.
Proof.
  unfold next_id. induction rows as [|x rows [IH1 IH2]]; simpl.
  - split; [lia|constructor].
  - split; [lia|]. constructor; [lia|].
    eapply Forall_impl; [exact IH2|]. simpl. intros; lia.
Qed.

Lemma ids_ok_snoc {A} (id : A → Z) rows x :
  ids_ok id rows → id x = next_id id rows → ids_ok id (rows ++ [x]).
Proof.
  intros [Hs Hp] Hx. destruct (next_id_above id rows) as [H1 Hlt]. split.
  - rewrite fmap_app. apply StronglySorted_app. split_and!.
    + intros a b [r [-> Hr]]%list_elem_of_fmap Hb.
      apply list_elem_of_singleton in Hb as ->. rewrite Hx.
      by apply (proj1 (Forall_forall _ _) Hlt).
    + done.
    + repeat constructor.
  - apply Forall_app. split; [done|]. repeat constructor. lia.
Qed.

Lemma ids_ok_NoDup {A} (id : A → Z) rows :
  ids_ok id rows → NoDup (id <$> rows).
Proof.
  intros [Hs _]. induction Hs as [|a l Hs IH Hall]; constructor; [|done].
  intros Hin. apply (proj1 (Forall_forall _ _) Hall) in Hin. lia.
Qed.

Lemma NoDup_fmap_eq {A B} (f : A → B) l x y :
  NoDup (f <$> l) → x ∈ l → y ∈ l → f x = f y → x = y.
Proof.
  induction l as [|a l IH]; simpl; [by intros _ ?%elem_of_nil|].
  intros [Hn Hd]%NoDup_cons [->|Hx]%elem_of_cons [->|Hy]%elem_of_cons Hf.
  - done.
  - destruct Hn. rewrite Hf. by apply list_elem_of_fmap_2.
  - destruct Hn. rewrite <- Hf. by apply list_elem_of_fmap_2.
  - by apply IH.
Qed.

Lemma get_user_by_email_Some e d u :
  get_user_by_email e d = Some u → u ∈ users d ∧ user_email u = e.
Proof.
  unfold get_user_by_email. intros [Hin Heq]%find_some.
  split; [by apply list_elem_of_In|]. by apply String.eqb_eq.
Qed.

Lemma get_user_by_email_None e d :
  get_user_by_email e d = None ↔ e ∉ user_email <$> users d.
Proof.
  unfold get_user_by_email. split.
  - intros Hf [u [-> Hu]]%list_elem_of_fmap.
    apply list_elem_of_In in Hu.
    pose proof (find_none _ _ Hf u Hu) as Hne. simpl in Hne.
    by rewrite String.eqb_refl in Hne.
  - intros Hnot. destruct (find _ _) as [u|] eqn:Hf; [|done].
    apply find_some in Hf as [Hin <-%String.eqb_eq].
    destruct Hnot. apply list_elem_of_fmap_2. by apply list_elem_of_In.
Qed.

Lemma get_user_by_id_Some i d u :
  get_user_by_id (Some i) d = Some u → u ∈ users d ∧ user_id u = i.
Proof.
  simpl. intros [Hin Heq]%find_some.
  split; [by apply list_elem_of_In|]. by apply Z.eqb_eq.
Qed.

Lemma get_user_by_id_elem u d :
  u ∈ users d → NoDup (user_id <$> users d) →
  get_user_by_id (Some (user_id u)) d = Some u.
Proof.
  intros Hu Hnd. simpl.
  destruct (find _ _) as [u'|] eqn:Hf.
  - apply find_some in Hf as [Hin Heq%Z.eqb_eq].
    f_equal. apply (NoDup_fmap_eq user_id (users d)); try done.
    by apply list_elem_of_In.
  - apply list_elem_of_In in Hu.
    pose proof (find_none _ _ Hf u Hu) as Hne. simpl in Hne.
    by rewrite Z.eqb_refl in Hne.
Qed.

(** ** Every route, every request *)

(** Case analysis of a served request: unfold the routing and the view,
    then split on every test the view makes. *)
Ltac unfold_views :=
  unfold serve, view, home, about, book, profile, logout, login_required,
    book_body, reviews, register, login, insert_review, insert_user,
    insert_appointment, with_session, with_db, set_users, set_appointments,
    set_reviews in *.

Ltac view_cases := unfold_views; repeat case_match; simplify_eq/=.

Section AppProperties.

Variable generate_password_hash : string → string → string.
Variable check_password_hash : string → string → bool.

Local Abbreviation app :=
  (serve generate_password_hash check_password_hash).

(** X2. The tables are append-only: whatever the route and the request,
    each table of the database after the request starts with the table of
    before, and at most one row has been added overall. *)
Theorem serve_append_only (r : route) (e : env) (req : request) (w : world) :
  db_extends (w_db w) (w_db (app r e req w).2) ∧
  (row_count (w_db (app r e req w).2) ≤ row_count (w_db w) + 1)%nat.
Proof.
  unfold db_extends, row_count.
  destruct r; view_cases; rewrite ?length_app; simpl;
    (split_and!; [done || by apply prefix_app_r..|lia]).
Qed.

(** X3. A GET request never writes: on every route the database after a
    GET is the database of before. *)
Theorem get_never_writes (r : route) (e : env) (req : request) (w : world) :
  method req = GET →
  w_db (app r e req w).2 = w_db w.
Proof.
  intros Hm. destruct r; view_cases; done.
Qed.

(** *** What each table can receive *)

Lemma serve_users r e req w :
  users (w_db (app r e req w).2) = users (w_db w) ∨
  r = RRegister ∧ method req = POST ∧
  sess_user_id (w_session w) = None ∧
  register_filled req = true ∧
  get_user_by_email (normalize_email (form_get req "email")) (w_db w) = None ∧
  users (w_db (app r e req w).2)
  = (users (w_db w) ++
     [User (next_id user_id (users (w_db w)))
           (Py.strip (form_get req "name"))
           (normalize_email (form_get req "email"))
           (generate_password_hash (env_salt e) (form_get req "password"))
           (env_now e)])%list.
Proof.
  destruct r; try (left; view_cases; done).
  unfold register_filled. view_cases; try (by left).
  right. split_and!; try done.
  by apply negb_false_iff.
Qed.

Lemma serve_appointments r e req w :
  appointments (w_db (app r e req w).2) = appointments (w_db w) ∨
  ∃ uid : Z,
    r = RBook ∧ method req = POST ∧
    sess_user_id (w_session w) = Some uid ∧
    missing_field book_required req = false ∧
    appointments (w_db (app r e req w).2)
    = (appointments (w_db w) ++
       [Appointment (next_id appt_id (appointments (w_db w))) (Some uid)
          (Py.strip (form_get req "name"))
          (Py.strip (form_get req "email"))
          (Py.strip (form_get req "date"))
          (Py.strip (form_get req "time"))
          (Py.strip (form_get req "reason")) (env_now e)])%list.
Proof.
  destruct r; try (left; view_cases; done).
  unfold missing_field, book_required. view_cases; try (by left).
  right. eexists. split_and!; try done.
  simpl. rewrite !orb_false_r.
  repeat match goal with
         | H : negb _ = false |- _ => apply negb_false_iff in H
         | H : _ && _ = true |- _ => apply andb_true_iff in H as [? ?]
         end.
  by repeat match goal with H : Py.truthy _ = true |- _ => rewrite H end.
Qed.

Lemma serve_reviews_table r e req w :
  reviews_table (w_db (app r e req w).2) = reviews_table (w_db w) ∨
  ∃ (uid n : Z),
    r = RReviews ∧ method req = POST ∧
    sess_user_id (w_session w) = Some uid ∧
    missing_field reviews_required req = false ∧
    Py.int (Py.strip (form_get req "rating")) = Some n ∧
    sqlite_int_ok n = true ∧
    reviews_table (w_db (app r e req w).2)
    = (reviews_table (w_db w) ++
       [Review (next_id review_id (reviews_table (w_db w))) (Some uid)
          (Py.strip (form_get req "name")) n
          (Py.strip (form_get req "comment")) (env_now e)])%list.
Proof.
  destruct r; try (left; view_cases; done).
  unfold missing_field, reviews_required. view_cases; try (by left).
  right. eexists _, _. split_and!; try done.
  simpl. rewrite !orb_false_r.
  repeat match goal with
         | H : negb _ = false |- _ => apply negb_false_iff in H
         | H : _ && _ = true |- _ => apply andb_true_iff in H as [? ?]
         end.
  by repeat match goal with H : Py.truthy _ = true |- _ => rewrite H end.
Qed.

(** *** What the session can become *)

Lemma serve_identity r e req w :
  (sess_user_id (w_session (app r e req w).2) = sess_user_id (w_session w) ∧
   sess_user_name (w_session (app r e req w).2)
   = sess_user_name (w_session w)) ∨
  (r = RLogout ∧ method req = GET ∧
   sess_user_id (w_session (app r e req w).2) = None ∧
   sess_user_name (w_session (app r e req w).2) = None) ∨
  (∃ u : user,
     r = RLogin ∧ method req = POST ∧
     sess_user_id (w_session w) = None ∧
     get_user_by_email (normalize_email (form_get req "email")) (w_db w)
     = Some u ∧
     check_password_hash (user_password_hash u) (form_get req "password")
     = true ∧
     sess_user_id (w_session (app r e req w).2) = Some (user_id u) ∧
     sess_user_name (w_session (app r e req w).2) = Some (user_name u)).
Proof.
  destruct r; try (left; view_cases; done).
  - view_cases; try (by left). right; right. eauto 10.
  - view_cases; try (by left). right; left.
    match goal with
    | H : bool_decide _ = true |- _ =>
        apply bool_decide_eq_true, list_elem_of_singleton in H
    end.
    done.
Qed.

(** *** Invariants *)

Lemma sess_ok_extends s d d' :
  sess_ok s d → users d `prefix_of` users d' → sess_ok s d'.
Proof.
  unfold sess_ok. intros Hs [k Hk]. destruct (sess_user_id s); [|done].
  destruct Hs as (u & Hu & Hid & Hn). exists u. split_and!; try done.
  rewrite Hk. apply elem_of_app. by left.
Qed.

Lemma owned_by_user_extends d d' o :
  owned_by_user d o → users d `prefix_of` users d' → owned_by_user d' o.
Proof.
  intros (u & Hu & ->) [k Hk]. exists u. split; [|done].
  rewrite Hk. apply elem_of_app. by left.
Qed.

Lemma serve_users_prefix r e req w :
  users (w_db w) `prefix_of` users (w_db (app r e req w).2).
Proof.
  destruct (serve_users r e req w) as [->|(_ & _ & _ & _ & _ & ->)];
    [done|by apply prefix_app_r].
Qed.

Lemma serve_ids_ok r e req w :
  db_ids_ok (w_db w) → db_ids_ok (w_db (app r e req w).2).
Proof.
  intros (Hu & Ha & Hr). split_and!.
  - destruct (serve_users r e req w) as [->|(_ & _ & _ & _ & _ & ->)];
      [done|by apply ids_ok_snoc].
  - destruct (serve_appointments r e req w)
      as [->|(uid & _ & _ & _ & _ & ->)]; [done|by apply ids_ok_snoc].
  - destruct (serve_reviews_table r e req w)
      as [->|(uid & n & _ & _ & _ & _ & _ & _ & ->)];
      [done|by apply ids_ok_snoc].
Qed.

Lemma serve_sess_ok r e req w :
  sess_ok (w_session w) (w_db w) →
  sess_ok (w_session (app r e req w).2) (w_db (app r e req w).2).
Proof.
  intros Hs.
  pose proof (sess_ok_extends _ _ _ Hs (serve_users_prefix r e req w)) as Hs'.
  pose proof (serve_users_prefix r e req w) as [k Hk].
  unfold sess_ok in *.
  destruct (serve_identity r e req w)
    as [[-> ->]|[(_ & _ & -> & ->)|(u & _ & _ & _ & Hu & _ & -> & ->)]];
    [done..|].
  exists u. split_and!; try done.
  apply get_user_by_email_Some in Hu as [Hu _].
  rewrite Hk. apply elem_of_app. by left.
Qed.

Lemma serve_owners_ok r e req w :
  sess_ok (w_session w) (w_db w) →
  owners_ok (w_db w) →
  owners_ok (w_db (app r e req w).2).
Proof.
  intros Hs [Ha Hr]. pose proof (serve_users_prefix r e req w) as Hpre.
  assert (Hown : ∀ uid, sess_user_id (w_session w) = Some uid →
                        owned_by_user (w_db (app r e req w).2) (Some uid)).
  { intros uid Hid. unfold sess_ok in Hs. rewrite Hid in Hs.
    destruct Hs as (u & Hu & <- & _).
    apply (owned_by_user_extends (w_db w)); [|done]. by exists u. }
  split.
  - destruct (serve_appointments r e req w)
      as [->|(uid & _ & _ & Hid & _ & ->)].
    + eapply Forall_impl; [exact Ha|].
      intros a Hoa. by apply (owned_by_user_extends (w_db w)).
    + apply Forall_app. split.
      * eapply Forall_impl; [exact Ha|].
        intros a Hoa. by apply (owned_by_user_extends (w_db w)).
      * repeat constructor. simpl. by apply Hown.
  - destruct (serve_reviews_table r e req w)
      as [->|(uid & n & _ & _ & Hid & _ & _ & _ & ->)].
    + eapply Forall_impl; [exact Hr|].
      intros a Hoa. by apply (owned_by_user_extends (w_db w)).
    + apply Forall_app. split.
      * eapply Forall_impl; [exact Hr|].
        intros a Hoa. by apply (owned_by_user_extends (w_db w)).
      * repeat constructor. simpl. by apply Hown.
Qed.

Lemma run_snoc trace x w :
  run generate_password_hash check_password_hash (trace ++ [x]) w
  = (app x.1.1 x.1.2 x.2
       (run generate_password_hash check_password_hash trace w)).2.
Proof. unfold run. by rewrite foldl_app. Qed.

Lemma run_extends trace w :
  db_extends (w_db w)
    (w_db (run generate_password_hash check_password_hash trace w)).
Proof.
  induction trace as [|x trace IH] using rev_ind.
  - by split_and!.
  - rewrite run_snoc.
    destruct IH as (Hu & Ha & Hr).
    destruct (serve_users_prefix x.1.1 x.1.2 x.2
                (run generate_password_hash check_password_hash trace w)).
    pose proof (serve_appointments x.1.1 x.1.2 x.2
                (run generate_password_hash check_password_hash trace w))
      as [Ha'|(? & _ & _ & _ & _ & Ha')];
    pose proof (serve_reviews_table x.1.1 x.1.2 x.2
                (run generate_password_hash check_password_hash trace w))
      as [Hr'|(? & ? & _ & _ & _ & _ & _ & _ & Hr')];
    (split_and!;
     [etrans; [exact Hu|]; eexists; eassumption
     |rewrite Ha'; try apply prefix_app_r; done
     |rewrite Hr'; try apply prefix_app_r; done]).
Qed.

(** X4. Each table is written by one route only, and only on a POST:
    [users] by an anonymous, complete registration with a fresh address;
    [appointments] by a booking of a logged-in user with the four
    required fields; [reviews] by a review of a logged-in user whose
    rating is an integer literal in SQLite's range. The row that is
    appended carries the next id, the stripped fields, the reading of the
    clock, and for the two repositories the user of the session as its
    owner. *)
Theorem tables_written_by_their_route (r : route) (e : env) (req : request)
    (w : world) :
  (users (w_db (app r e req w).2) = users (w_db w) ∨
   r = RRegister ∧ method req = POST ∧
   sess_user_id (w_session w) = None ∧
   register_filled req = true ∧
   get_user_by_email (normalize_email (form_get req "email")) (w_db w)
   = None ∧
   users (w_db (app r e req w).2)
   = (users (w_db w) ++
      [User (next_id user_id (users (w_db w)))
            (Py.strip (form_get req "name"))
            (normalize_email (form_get req "email"))
            (generate_password_hash (env_salt e) (form_get req "password"))
            (env_now e)])%list) ∧
  (appointments (w_db (app r e req w).2) = appointments (w_db w) ∨
   ∃ uid : Z,
     r = RBook ∧ method req = POST ∧
     sess_user_id (w_session w) = Some uid ∧
     missing_field book_required req = false ∧
     appointments (w_db (app r e req w).2)
     = (appointments (w_db w) ++
        [Appointment (next_id appt_id (appointments (w_db w))) (Some uid)
           (Py.strip (form_get req "name"))
           (Py.strip (form_get req "email"))
           (Py.strip (form_get req "date"))
           (Py.strip (form_get req "time"))
           (Py.strip (form_get req "reason")) (env_now e)])%list) ∧
  (reviews_table (w_db (app r e req w).2) = reviews_table (w_db w) ∨
   ∃ (uid n : Z),
     r = RReviews ∧ method req = POST ∧
     sess_user_id (w_session w) = Some uid ∧
     missing_field reviews_required req = false ∧
     Py.int (Py.strip (form_get req "rating")) = Some n ∧
     sqlite_int_ok n = true ∧
     reviews_table (w_db (app r e req w).2)
     = (reviews_table (w_db w) ++
        [Review (next_id review_id (reviews_table (w_db w))) (Some uid)
           (Py.strip (form_get req "name")) n
           (Py.strip (form_get req "comment")) (env_now e)])%list).
Proof.
  split_and!.
  - apply serve_users.
  - apply serve_appointments.
  - apply serve_reviews_table.
Qed.

(** X5. The identity held by the session changes in two ways only. A GET
    of [logout] empties it. A POST to [login] by an anonymous visitor,
    with the address of a stored user and a password the stored hash
    accepts, sets it to the id and the name of that user. Every other
    request, on any route, leaves [user_id] and [user_name] as they
    were. *)
Theorem session_identity_changes (r : route) (e : env) (req : request)
    (w : world) :
  (sess_user_id (w_session (app r e req w).2) = sess_user_id (w_session w) ∧
   sess_user_name (w_session (app r e req w).2)
   = sess_user_name (w_session w)) ∨
  (r = RLogout ∧ method req = GET ∧
   sess_user_id (w_session (app r e req w).2) = None ∧
   sess_user_name (w_session (app r e req w).2) = None) ∨
  (∃ u : user,
     r = RLogin ∧ method req = POST ∧
     sess_user_id (w_session w) = None ∧
     get_user_by_email (normalize_email (form_get req "email")) (w_db w)
     = Some u ∧
     check_password_hash (user_password_hash u) (form_get req "password")
     = true ∧
     sess_user_id (w_session (app r e req w).2) = Some (user_id u) ∧
     sess_user_name (w_session (app r e req w).2) = Some (user_name u)).
Proof. apply serve_identity. Qed.

(** X6. Only the posting of a review can end in an exception. If a
    served request raises, the route is [reviews], the method POST, a
    user is logged in, and either the rating is no integer literal
    ([ValueError]) or it is one outside SQLite's 64-bit range
    ([OverflowError]); the world is then the one of before. In
    particular [register] never trips over the [UNIQUE] constraint of
    the address. *)
Theorem raise_only_from_reviews (r : route) (e : env) (req : request)
    (w : world) (ex : exn) :
  (app r e req w).1 = Served (Raise ex) →
  r = RReviews ∧ method req = POST ∧
  is_Some (sess_user_id (w_session w)) ∧
  (app r e req w).2 = w ∧
  (ex = ValueError ∧ Py.int (Py.strip (form_get req "rating")) = None ∨
   ex = OverflowError ∧
   ∃ n : Z, Py.int (Py.strip (form_get req "rating")) = Some n ∧
            sqlite_int_ok n = false).
Proof.
  destruct r; intros Hraise; try (view_cases; done).
  - view_cases; destruct w; split_and!; eauto.
  - exfalso. view_cases.
    match goal with
    | H : get_user_by_email _ _ = None, H' : existsb _ _ = true |- _ =>
        unfold get_user_by_email in H;
        rewrite (find_none_existsb _ _ H) in H'; done
    end.
Qed.

(** X9. When the session agrees with the credential store (it names
    nobody, or a stored user with that user's name) and every appointment
    and review is owned by a stored user, both still hold after any
    request; and a session of another browser that agreed with the store
    before the request agrees with it after. No route ever stores a row
    without an owner. *)
Theorem serve_preserves_ownership (r : route) (e : env) (req : request)
    (w : world) :
  sess_ok (w_session w) (w_db w) →
  owners_ok (w_db w) →
  sess_ok (w_session (app r e req w).2) (w_db (app r e req w).2) ∧
  owners_ok (w_db (app r e req w).2) ∧
  (∀ s : session,
     sess_ok s (w_db w) → sess_ok s (w_db (app r e req w).2)).
Proof.
  intros Hs Ho. split_and!.
  - by apply serve_sess_ok.
  - by apply serve_owners_ok.
  - intros s Hs'. eapply sess_ok_extends; [done|].
    apply serve_users_prefix.
Qed.

(** The two laws of the built-ins on which the shape of a stored user
    rests: stripping twice is stripping once, and so is normalising an
    address. *)
Section Credentials.

Hypothesis strip_idempotent :
  ∀ s : string, Py.strip (Py.strip s) = Py.strip s.
Hypothesis normalize_idempotent :
  ∀ s : string, normalize_email (normalize_email s) = normalize_email s.

Lemma serve_users_ok r e req w :
  users_ok generate_password_hash (w_db w) →
  users_ok generate_password_hash (w_db (app r e req w).2).
Proof.
  intros [Hnd Hall]. unfold users_ok.
  destruct (serve_users r e req w)
    as [->|(_ & _ & _ & Hfill & Hnew & ->)]; [done|].
  unfold register_filled in Hfill.
  apply andb_true_iff in Hfill as [[Hn He]%andb_true_iff Hp].
  apply truthy_nonempty in Hn, He, Hp. split.
  - rewrite fmap_app. apply NoDup_app. split_and!; [done| |].
    + intros x Hx [->|[]%elem_of_nil]%elem_of_cons.
      by apply get_user_by_email_None in Hnew.
    + apply NoDup_singleton.
  - apply Forall_app. split; [done|]. repeat constructor; simpl.
    + done.
    + apply strip_idempotent.
    + done.
    + apply normalize_idempotent.
    + eauto.
Qed.

(** X7. Every request keeps the credential store well formed: if the
    stored addresses are pairwise distinct and every row has a stripped
    non-empty name, a non-empty address in normal form and a hash made by
    [generate_password_hash] from a non-empty password, the same holds
    after the request, whatever the route, the form and the session. *)
Theorem serve_preserves_credentials (r : route) (e : env) (req : request)
    (w : world) :
  users_ok generate_password_hash (w_db w) →
  users_ok generate_password_hash (w_db (app r e req w).2).
Proof. apply serve_users_ok. Qed.

(** X8. Every request keeps the ids of the three tables strictly
    increasing along the table and at least 1; in particular no two rows
    of a table ever share an id. *)
Theorem serve_preserves_ids (r : route) (e : env) (req : request)
    (w : world) :
  db_ids_ok (w_db w) →
  db_ids_ok (w_db (app r e req w).2) ∧
  NoDup (user_id <$> users (w_db (app r e req w).2)) ∧
  NoDup (appt_id <$> appointments (w_db (app r e req w).2)) ∧
  NoDup (review_id <$> reviews_table (w_db (app r e req w).2)).
Proof.
  intros H. destruct (serve_ids_ok r e req w H) as (Hu & Ha & Hr).
  split_and!; [by split_and!|by apply ids_ok_NoDup..].
Qed.

(** X10. Every world one browser can reach from the empty database with
    an empty cookie, by any sequence of requests to any routes, has a
    well-formed credential store, increasing ids, a session that agrees
    with the store, and no appointment or review without a stored
    owner. *)
Theorem reachable_worlds_ok (trace : list (route * env * request)) :
  let w := run generate_password_hash check_password_hash trace fresh_world in
  users_ok generate_password_hash (w_db w) ∧
  db_ids_ok (w_db w) ∧
  sess_ok (w_session w) (w_db w) ∧
  owners_ok (w_db w).
Proof.
  induction trace as [|x trace IH] using rev_ind.
  - simpl. split_and!.
    + split; constructor.
    + by repeat split; constructor.
    + done.
    + split; constructor.
  - rewrite run_snoc. simpl in *. destruct IH as (Hu & Hi & Hs & Ho).
    split_and!.
    + by apply serve_users_ok.
    + by apply serve_ids_ok.
    + by apply serve_sess_ok.
    + by apply serve_owners_ok.
Qed.

End Credentials.

Lemma find_app_Some {A} (p : A → bool) l k x :
  find p l = Some x → find p (l ++ k) = Some x.
Proof.
  induction l as [|y l IH]; simpl; [done|]. destruct (p y); auto.
Qed.

Lemma elem_of_list_for_owner uid d a :
  a ∈ list_for_owner (Some uid) d ↔
  a ∈ appointments d ∧ appt_user_id a = Some uid.
Proof.
  unfold list_for_owner.
  rewrite order_by_desc_perm, list_elem_of_filter, by_rowid_perm. tauto.
Qed.

(** X11. Nothing that is stored is ever lost or edited. After any
    sequence of requests the three tables start with the rows they had;
    an address that found a user finds the same record; and an
    appointment in a user's history is still in it. *)
Theorem stored_rows_persist (trace : list (route * env * request))
    (w : world) :
  let w' := run generate_password_hash check_password_hash trace w in
  db_extends (w_db w) (w_db w') ∧
  (∀ (a : string) (u : user),
     get_user_by_email a (w_db w) = Some u →
     get_user_by_email a (w_db w') = Some u) ∧
  (∀ (uid : Z) (a : appointment),
     a ∈ list_for_owner (Some uid) (w_db w) →
     a ∈ list_for_owner (Some uid) (w_db w')).
Proof.
  intros w'. pose proof (run_extends trace w) as (Hu & Ha & Hr).
  fold w' in Hu, Ha, Hr. split_and!.
  - done.
  - intros a u Hf. destruct Hu as [k Hk]. unfold get_user_by_email.
    rewrite Hk. by apply find_app_Some.
  - intros uid a [Hin Ho]%elem_of_list_for_owner.
    apply elem_of_list_for_owner. split; [|done].
    destruct Ha as [k Hk]. rewrite Hk. apply elem_of_app. by left.
Qed.

(** X12. [login] authenticates exactly the holders of a password: for an
    anonymous POST, the session after it resolves to [uid] if and only
    if the normalised address finds a stored user with id [uid] whose
    hash accepts the submitted password. *)
Theorem login_authenticates_iff (req : request) (w : world) (uid : Z) :
  method req = POST →
  sess_user_id (w_session w) = None →
  resolve (w_session (login check_password_hash req w).2) = Some uid ↔
  ∃ u : user,
    get_user_by_email (normalize_email (form_get req "email")) (w_db w)
    = Some u ∧
    user_id u = uid ∧
    check_password_hash (user_password_hash u) (form_get req "password")
    = true.
Proof.
  intros Hm Hs. unfold login, resolve. rewrite Hs, Hm. cbv zeta.
  destruct (get_user_by_email _ _) as [u|]; simpl.
  - destruct (check_password_hash _ _) eqn:Hc; simpl.
    + split; [intros [= <-]; eauto|]. by intros (u' & [= <-] & <- & _).
    + rewrite Hs. split; [done|]. intros (u' & [= <-] & _ & Hc').
      congruence.
  - rewrite Hs. split; [done|]. by intros (u' & ? & _).
Qed.

(** X13. An address can be registered once. After a registration that
    succeeded, a second anonymous POST to [register], with a name and a
    password and an address of the same normal form (the same address in
    another case or with padding), gets the duplicate-address warning and
    leaves the world of the first registration as it is but for that
    message. *)
Theorem register_twice_rejected (salt now salt' now' : string)
    (req req' : request) (w w1 : world) :
  register generate_password_hash salt now req w
    = (Return (redirect UrlLogin), w1) →
  method req' = POST →
  Py.truthy (Py.strip (form_get req' "name")) = true →
  Py.truthy (form_get req' "password") = true →
  normalize_email (form_get req' "email")
    = normalize_email (form_get req "email") →
  register generate_password_hash salt' now' req' w1
  = (Return (redirect UrlRegister),
     with_session
       (flash "An account with that email already exists." "warning") w1).
Proof.
  intros Hreg Hm' Hn' Hp' Hmail.
  destruct (register_success_inv _ _ _ _ _ _ Hreg)
    as (Hm & Hs & Hfill & Hnew).
  rewrite (register_fresh _ salt now req w Hm Hs Hfill Hnew) in Hreg.
  injection Hreg as <-.
  unfold register_filled in Hfill.
  apply andb_true_iff in Hfill as [[_ He]%andb_true_iff _].
  unfold register at 1. simpl. rewrite Hs, Hm'. cbv zeta.
  rewrite Hmail, Hn', He, Hp'. simpl.
  unfold get_user_by_email in *. simpl.
  rewrite (find_snoc_fresh _ _ _ Hnew) by (simpl; apply String.eqb_refl).
  done.
Qed.

(** X14. [register] insists on its three fields: an anonymous POST whose
    name is blank once stripped, or whose address is blank once
    normalised, or whose password is empty, gets the fill-all-fields
    answer, and no user is stored. *)
Theorem register_rejects_blank (salt now : string) (req : request)
    (w : world) :
  method req = POST →
  sess_user_id (w_session w) = None →
  Py.strip (form_get req "name") = "" ∨
  normalize_email (form_get req "email") = "" ∨
  form_get req "password" = "" →
  register generate_password_hash salt now req w
  = invalid UrlRegister "Please fill all fields." w.
Proof.
  intros Hm Hs Hblank. unfold register. rewrite Hs, Hm. cbv zeta.
  destruct Hblank as [->|[->| ->]]; simpl; rewrite ?andb_false_r; done.
Qed.

End AppProperties.

(** ** Reviews: range of the rating, the public feed *)

(** X15. A rating that is an integer literal but does not fit SQLite's
    64-bit [INTEGER] is not stored: binding it raises [OverflowError]
    out of the handler, and the world is the one of before. *)
Theorem reviews_rating_out_of_range (now : string) (req : request)
    (w : world) (uid n : Z) :
  method req = POST →
  sess_user_id (w_session w) = Some uid →
  missing_field reviews_required req = false →
  Py.int (Py.strip (form_get req "rating")) = Some n →
  n < - 2 ^ 63 ∨ 2 ^ 63 ≤ n →
  reviews now req w = (Raise OverflowError, w).
Proof.
  intros Hm Hs Hmiss Hint Hn. unfold reviews. rewrite Hm, Hs. cbv zeta.
  unfold missing_field, reviews_required in Hmiss. simpl in Hmiss.
  destruct (Py.truthy (Py.strip (form_get req "name")));
    destruct (Py.truthy (Py.strip (form_get req "rating")));
    simpl in *; try done.
  rewrite Hint. unfold insert_review.
  assert (sqlite_int_ok n = false) as ->; [|done].
  unfold sqlite_int_ok. apply andb_false_iff.
  destruct Hn; [left; by apply Z.leb_gt|right; by apply Z.ltb_ge].
Qed.




(** X17. A review that is accepted shows in the feed as it was sent: for
    a logged-in user whose session agrees with the store, a POST with a
    name and an integer rating in range puts into [list_all] the new
    review, with the parsed rating and the stripped name and comment,
    next to the address of the logged-in user. *)
Theorem review_post_shows_in_feed (now : string) (req : request) (w : world)
    (uid n : Z) :
  method req = POST →
  sess_user_id (w_session w) = Some uid →
  sess_ok (w_session w) (w_db w) →
  ids_ok user_id (users (w_db w)) →
  missing_field reviews_required req = false →
  Py.int (Py.strip (form_get req "rating")) = Some n →
  sqlite_int_ok n = true →
  ∃ u : user,
    u ∈ users (w_db w) ∧ user_id u = uid ∧
    (Review (next_id review_id (reviews_table (w_db w))) (Some uid)
       (Py.strip (form_get req "name")) n
       (Py.strip (form_get req "comment")) now,
     Some (user_email u))
    ∈ list_all (w_db (reviews now req w).2).
Proof.
  intros Hm Hs Hok Hids Hmiss Hint Hn.
  rewrite (reviews_post_integer now req w uid n Hm Hs Hmiss Hint Hn).
  unfold sess_ok in Hok. rewrite Hs in Hok.
  destruct Hok as (u & Hu & Hid & _). exists u. split_and!; [done..|].
  unfold list_all. apply list_elem_of_fmap. eexists. split; cycle 1.
  - rewrite order_by_desc_perm, by_rowid_perm. simpl.
    apply elem_of_app. right.
    apply list_elem_of_singleton. reflexivity.
  - simpl. do 2 f_equal. rewrite <- Hid.
    change (Some (user_email u)
            = user_email <$> get_user_by_id (Some (user_id u)) (w_db w)).
    rewrite (get_user_by_id_elem u (w_db w) Hu); [done|].
    by apply ids_ok_NoDup.
Qed.

(** ** Profile and history *)

(** X18. The profile page shows the caller's own record. For a logged-in
    user whose session agrees with the store, and ids that do not repeat,
    [profile] renders the stored user whose id is the one of the session
    and whose name is the one of the session, and changes nothing. *)
Theorem profile_shows_own_record (req : request) (w : world) (uid : Z) :
  sess_user_id (w_session w) = Some uid →
  sess_ok (w_session w) (w_db w) →
  ids_ok user_id (users (w_db w)) →
  ∃ u : user,
    profile req w = (Return (render_template (profile_html (Some u))), w) ∧
    u ∈ users (w_db w) ∧ user_id u = uid ∧
    sess_user_name (w_session w) = Some (user_name u).
Proof.
  intros Hs Hok Hids. unfold sess_ok in Hok. rewrite Hs in Hok.
  destruct Hok as (u & Hu & Hid & Hname). exists u.
  split_and!; [|done..].
  unfold profile. rewrite (login_required_logged_in _ _ _ _ Hs).
  rewrite Hs, <- Hid. rewrite (get_user_by_id_elem u (w_db w) Hu); [done|].
  by apply ids_ok_NoDup.
Qed.

(** X19. A booking shows in the history of the user who made it and in
    no other. After an accepted booking of user [uid], the history of
    [uid] is the history of before together with the new appointment,
    the history of any other user is the list it was, and the booking
    page of [uid] is rendered with the new history. *)
Theorem book_then_history (now now' : string) (req : request)
    (f : gmap string string) (w : world) (uid : Z) :
  method req = POST →
  sess_user_id (w_session w) = Some uid →
  missing_field book_required req = false →
  list_for_owner (Some uid) (w_db (book now req w).2)
  ≡ₚ Appointment (next_id appt_id (appointments (w_db w))) (Some uid)
       (Py.strip (form_get req "name"))
       (Py.strip (form_get req "email"))
       (Py.strip (form_get req "date"))
       (Py.strip (form_get req "time"))
       (Py.strip (form_get req "reason")) now
     :: list_for_owner (Some uid) (w_db w) ∧
  (∀ other : Z,
     other ≠ uid →
     list_for_owner (Some other) (w_db (book now req w).2)
     = list_for_owner (Some other) (w_db w)) ∧
  (book now' (Request GET f) (book now req w).2).1
  = Return (render_template
              (book_html (list_for_owner (Some uid)
                            (w_db (book now req w).2)))).
Proof.
  intros Hm Hs Hmiss.
  rewrite (book_post_complete now req w uid Hm Hs Hmiss).
  unfold list_for_owner, insert_appointment. simpl. split_and!.
  - rewrite !order_by_desc_perm, !by_rowid_perm, filter_app.
    rewrite filter_cons_True by done. rewrite filter_nil.
    by rewrite Permutation_app_comm.
  - intros other Hne. unfold by_rowid.
    rewrite !(stable_sort_filter (asc_by appt_id)), filter_app.
    rewrite filter_cons_False by (simpl; congruence).
    by rewrite filter_nil, app_nil_r.
  - unfold book, login_required. simpl. rewrite Hs.
    unfold book_body, list_for_owner. simpl. by rewrite Hs.
Qed.

(** X20. After [logout] the gate is closed again: whatever the session
    was, the next booking request, profile request or posted review is
    turned away to the login page, and the database is the one of before
    the logout. *)
Theorem logout_then_denied (now : string) (req req' : request)
    (f : gmap string string) (w : world) :
  let w' := (logout req w).2 in
  (book now req' w').1 = Return (redirect UrlLogin) ∧
  (profile req' w').1 = Return (redirect UrlLogin) ∧
  (reviews now (Request POST f) w').1 = Return (redirect UrlLogin) ∧
  w_db (book now req' w').2 = w_db w ∧
  w_db (profile req' w').2 = w_db w ∧
  w_db (reviews now (Request POST f) w').2 = w_db w.
Proof. done. Qed.

(** ** Start-up and the connection of a request *)

(** X21. [init_db] can run at every start: it leaves a database file with
    the three tables, keeps the rows of a table that was there, gives an
    absent table no rows, and running it again changes nothing. *)
Theorem init_db_idempotent_preserving (f : db_file) :
  init_db (init_db f) = init_db f ∧
  open_database (init_db f)
  = Some (Database (default [] (file_users f))
                   (default [] (file_appointments f))
                   (default [] (file_reviews f))) ∧
  (∀ d : database, open_database f = Some d → open_database (init_db f) = Some d).
Proof.
  destruct f as [[us|] [ap|] [rv|]]; split_and!; try done;
    by intros d [= <-].
Qed.




End Generic.

(** * The routes run on the implementation [Text] *)

Section Runs.

#[local] Existing Instance Text.builtins.

Lemma demo_check_generate (salt password : string) :
  demo_check (demo_generate salt password) password = true.
Proof. unfold demo_check, demo_generate. apply String.eqb_refl. Qed.

(** C1. Posting a review whose rating is ["abc"], with a name and a
    logged-in user: [int("abc")] raises [ValueError] out of the handler.
    No row is written and the session is untouched, but the answer is the
    escaping exception, not the advisory-and-redirect answer of a failed
    validation. With rating ["4"] the review is stored and its rating is
    the integer 4. *)
Theorem reviews_rating_abc_raises (now : string) (uid : Z)
    (uname : option string) (fl : list (string * string)) (d : database) :
  let w := World (Session (Some uid) uname fl) d in
  reviews now (review_form "abc") w = (Raise ValueError, w) ∧
  (∀ (back : endpoint) (message : string),
     reviews now (review_form "abc") w ≠ invalid back message w) ∧
  (reviews now (review_form "4") w).1 = Return (redirect UrlReviews) ∧
  reviews_table (w_db (reviews now (review_form "4") w).2)
  = (reviews_table d ++
     [Review (next_id review_id (reviews_table d)) (Some uid) "Bob" 4 ""
        now])%list.
Proof.
  intros w.
  assert (Habc : reviews now (review_form "abc") w = (Raise ValueError, w)).
  { by apply (reviews_post_not_integer now (review_form "abc") w uid). }
  split_and!.
  - exact Habc.
  - intros back message. rewrite Habc. discriminate.
  - by rewrite (reviews_post_integer now (review_form "4") w uid 4).
  - by rewrite (reviews_post_integer now (review_form "4") w uid 4).
Qed.

(** C4, as it is worded, fails on the code. A user registers the address
    ["ı@x.com"], with a dotless i, and logs in with its upper-case
    spelling ["I@X.COM"] and the right password: [lower] gives
    ["i@x.com"], which is not the stored address, and the login is
    refused. *)
Lemma register_then_login_case_variant_fails :
  register demo_generate "s1" "2024-01-01T10:00:00"
    (register_form "Alice" "ı@x.com" "pw123") fresh_world
  = (Return (redirect UrlLogin),
     World
       (Session None None
          [("success", "Registration successful. Please log in.")])
       (Database
          [User 1 "Alice" "ı@x.com" "demo$pw123" "2024-01-01T10:00:00"]
          [] [])) ∧
  login demo_check (login_form "I@X.COM" "pw123")
    (World
       (Session None None
          [("success", "Registration successful. Please log in.")])
       (Database
          [User 1 "Alice" "ı@x.com" "demo$pw123" "2024-01-01T10:00:00"]
          [] []))
  = invalid UrlLogin "Invalid email or password."
      (World
         (Session None None
            [("success", "Registration successful. Please log in.")])
         (Database
            [User 1 "Alice" "ı@x.com" "demo$pw123" "2024-01-01T10:00:00"]
            [] [])) ∧
  resolve
    (w_session
       (login demo_check (login_form "I@X.COM" "pw123")
          (World
             (Session None None
                [("success", "Registration successful. Please log in.")])
             (Database
                [User 1 "Alice" "ı@x.com" "demo$pw123" "2024-01-01T10:00:00"]
                [] []))).2)
  = None.
Proof. repeat split. Qed.

Lemma gate_denies_anonymous_witness :
  book "2024-01-01T10:00:00" (Request POST {["name" := "Alice"]})
       (World (Session None None []) (Database [] [] []))
  = denied "Please log in to access that page."
       (World (Session None None []) (Database [] [] [])).
Proof.
  apply (gate_denies_anonymous "2024-01-01T10:00:00"
           (Request POST {["name" := "Alice"]}) ∅
           (World (Session None None []) (Database [] [] []))).
  reflexivity.
Defined.

Lemma book_requires_fields_witness :
  book "2024-01-01T10:00:00"
       (Request POST (<["name" := "  "]> (<["email" := "a@x.com"]>
          (<["date" := "2024-01-02"]> {["time" := "10:00"]}))))
       (World (Session (Some 1) (Some "Alice") []) (Database [] [] []))
  = invalid UrlBook "Please fill all required fields."
       (World (Session (Some 1) (Some "Alice") []) (Database [] [] [])) ∧
  appointments (w_db (book "2024-01-01T10:00:00"
       (Request POST (<["name" := "Alice"]> (<["email" := "a@x.com"]>
          (<["date" := "2024-01-02"]> {["time" := "10:00"]}))))
       (World (Session (Some 1) (Some "Alice") []) (Database [] [] []))).2)
  = [Appointment 1 (Some 1) "Alice" "a@x.com" "2024-01-02" "10:00" ""
       "2024-01-01T10:00:00"].
Proof.
  split.
  - exact (proj1 (book_requires_fields "2024-01-01T10:00:00"
       (Request POST (<["name" := "  "]> (<["email" := "a@x.com"]>
          (<["date" := "2024-01-02"]> {["time" := "10:00"]}))))
       (World (Session (Some 1) (Some "Alice") []) (Database [] [] []))
       1 eq_refl eq_refl)).
  - exact (proj2 (book_requires_fields "2024-01-01T10:00:00"
       (Request POST (<["name" := "Alice"]> (<["email" := "a@x.com"]>
          (<["date" := "2024-01-02"]> {["time" := "10:00"]}))))
       (World (Session (Some 1) (Some "Alice") []) (Database [] [] []))
       1 eq_refl eq_refl)).
Defined.

Lemma blank_sample : Py.blank (Py.text [32; 9; 160]%N).
Proof.
  exists [32; 9; 160]%N. split; [|done].
  repeat constructor; apply list_elem_of_In; simpl; tauto.
Qed.

Lemma absent_field_same_as_blank_witness :
  book "2024-01-02T10:00:00"
    (Request POST
       (delete "date"
          (form (booking_form "Alice" "a@x.com" "2024-02-01" "09:00"))))
    alice_in
  = book "2024-01-02T10:00:00"
    (Request POST
       (<["date" := Py.text [32; 9; 160]%N]>
          (form (booking_form "Alice" "a@x.com" "2024-02-01" "09:00"))))
    alice_in ∧
  book "2024-01-02T10:00:00"
    (Request POST
       (<["date" := Py.text [32; 9; 160]%N]>
          (form (booking_form "Alice" "a@x.com" "2024-02-01" "09:00"))))
    alice_in
  = invalid UrlBook "Please fill all required fields." alice_in.
Proof.
  destruct (absent_field_same_as_blank (python := Text.builtins)
              text_strip_blank
              "2024-01-02T10:00:00"
              (form (booking_form "Alice" "a@x.com" "2024-02-01" "09:00"))
              "date" "rating" (Py.text [32; 9; 160]%N) alice_in 1)
    as (H1 & H2 & _).
  - exact blank_sample.
  - unfold book_required. set_solver.
  - unfold reviews_required. set_solver.
  - reflexivity.
  - by split.
Defined.

Lemma register_duplicate_email_witness :
  register demo_generate "s1" "2024-01-02T09:00:00"
    (Request POST (<["name" := "Bob"]> (<["email" := " A@X.com "]>
       {["password" := "hunter2"]})))
    (World (Session None None [])
       (Database [User 1 "Alice" "a@x.com" "demo$pw123" "2024-01-01T10:00:00"]
                 [] []))
  = (Return (redirect UrlRegister),
     World (Session None None
              [("warning", "An account with that email already exists.")])
       (Database [User 1 "Alice" "a@x.com" "demo$pw123" "2024-01-01T10:00:00"]
                 [] [])).
Proof.
  apply (register_duplicate_email demo_generate "s1" "2024-01-02T09:00:00"
           (Request POST (<["name" := "Bob"]> (<["email" := " A@X.com "]>
              {["password" := "hunter2"]})))
           (World (Session None None [])
              (Database
                 [User 1 "Alice" "a@x.com" "demo$pw123" "2024-01-01T10:00:00"]
                 [] []))
           (User 1 "Alice" "a@x.com" "demo$pw123" "2024-01-01T10:00:00"));
    reflexivity.
Defined.

Lemma login_failures_indistinguishable_witness :
  login demo_check
    (Request POST (<["email" := "nobody@x.com"]> {["password" := "pw123"]}))
    (World (Session None None [])
       (Database [User 1 "Alice" "a@x.com" "demo$pw123" "2024-01-01T10:00:00"]
                 [] []))
  = login demo_check
    (Request POST (<["email" := "a@x.com"]> {["password" := "wrong"]}))
    (World (Session None None [])
       (Database [User 1 "Alice" "a@x.com" "demo$pw123" "2024-01-01T10:00:00"]
                 [] [])).
Proof.
  apply (login_failures_indistinguishable demo_check
           (Request POST
              (<["email" := "nobody@x.com"]> {["password" := "pw123"]}))
           (Request POST (<["email" := "a@x.com"]> {["password" := "wrong"]}))
           (World (Session None None [])
              (Database
                 [User 1 "Alice" "a@x.com" "demo$pw123" "2024-01-01T10:00:00"]
                 [] []))
           (User 1 "Alice" "a@x.com" "demo$pw123" "2024-01-01T10:00:00"));
    reflexivity.
Defined.

Lemma auth_routes_idle_when_logged_in_witness :
  register demo_generate "s1" "2024-01-02T09:00:00"
    (Request POST (<["name" := "Bob"]> (<["email" := "b@x.com"]>
       {["password" := "hunter2"]})))
    (World (Session (Some 1) (Some "Alice") []) (Database [] [] []))
  = (Return (redirect UrlHome),
     World (Session (Some 1) (Some "Alice") []) (Database [] [] [])).
Proof.
  apply (auth_routes_idle_when_logged_in demo_generate demo_check
           "s1" "2024-01-02T09:00:00"
           (Request POST (<["name" := "Bob"]> (<["email" := "b@x.com"]>
              {["password" := "hunter2"]})))
           (World (Session (Some 1) (Some "Alice") []) (Database [] [] []))
           1).
  reflexivity.
Defined.

Lemma register_then_login_witness :
  resolve (w_session
    (login demo_check
       (Request POST (<["email" := "A@X.COM"]> {["password" := "pw123"]}))
       (World
          (Session None None
             [("success", "Registration successful. Please log in.")])
          (Database
             [User 1 "Alice" "a@x.com" "demo$pw123" "2024-01-01T10:00:00"]
             [] []))).2)
  = Some 1.
Proof.
  destruct (register_then_login demo_generate demo_check demo_check_generate
              "s1" "2024-01-01T10:00:00"
              (Request POST (<["name" := "Alice"]> (<["email" := "a@x.com"]>
                 {["password" := "pw123"]})))
              (Request POST
                 (<["email" := "A@X.COM"]> {["password" := "pw123"]}))
              (World (Session None None []) (Database [] [] []))
              (World
                 (Session None None
                    [("success", "Registration successful. Please log in.")])
                 (Database
                    [User 1 "Alice" "a@x.com" "demo$pw123"
                       "2024-01-01T10:00:00"]
                    [] [])))
    as (u & _ & Hid & _ & _ & Hres); [reflexivity..|].
  rewrite Hres, Hid. reflexivity.
Defined.

Lemma get_never_writes_witness :
  w_db (serve demo_generate demo_check RLogout sample_env
          (Request GET ∅) alice_in).2
  = alice_db.
Proof.
  apply (get_never_writes demo_generate demo_check RLogout sample_env
           (Request GET ∅) alice_in).
  reflexivity.
Defined.

Lemma raise_only_from_reviews_witness :
  (serve demo_generate demo_check RReviews sample_env (review_form "abc")
     alice_in).2
  = alice_in.
Proof.
  apply (raise_only_from_reviews demo_generate demo_check RReviews sample_env
           (review_form "abc") alice_in ValueError).
  reflexivity.
Defined.

Lemma serve_preserves_credentials_witness :
  users_ok demo_generate
    (w_db (serve demo_generate demo_check RRegister sample_env
             (register_form "Bob" " B@X.com " "hunter2") visitor).2).
Proof.
  apply (serve_preserves_credentials (python := Text.builtins)
           demo_generate demo_check
           text_strip_idempotent text_normalize_idempotent RRegister
           sample_env (register_form "Bob" " B@X.com " "hunter2") visitor).
  split.
  - apply NoDup_singleton.
  - repeat constructor; try done. by exists "s0", "pw123".
Defined.

Lemma reachable_worlds_ok_witness :
  users_ok demo_generate
    (w_db (run demo_generate demo_check
             [(RRegister, sample_env,
               register_form "Bob" " B@X.com " "hunter2");
              (RLogin, sample_env, login_form "b@x.com" "hunter2");
              (RBook, sample_env,
               booking_form "Bob" "b@x.com" "2024-02-01" "09:00")]
             fresh_world)).
Proof.
  exact (proj1 (reachable_worlds_ok (python := Text.builtins)
                  demo_generate demo_check
                  text_strip_idempotent text_normalize_idempotent
                  [(RRegister, sample_env,
                    register_form "Bob" " B@X.com " "hunter2");
                   (RLogin, sample_env, login_form "b@x.com" "hunter2");
                   (RBook, sample_env,
                    booking_form "Bob" "b@x.com" "2024-02-01" "09:00")])).
Defined.

Lemma serve_preserves_ids_witness :
  db_ids_ok
    (w_db (serve demo_generate demo_check RBook sample_env
             (booking_form "Alice" "a@x.com" "2024-02-01" "09:00")
             alice_in).2).
Proof.
  apply (serve_preserves_ids demo_generate demo_check RBook sample_env
           (booking_form "Alice" "a@x.com" "2024-02-01" "09:00") alice_in).
  repeat split; repeat constructor; simpl; lia.
Defined.

Lemma serve_preserves_ownership_witness :
  owners_ok
    (w_db (serve demo_generate demo_check RBook sample_env
             (booking_form "Alice" "a@x.com" "2024-02-01" "09:00")
             alice_in).2).
Proof.
  apply (serve_preserves_ownership demo_generate demo_check RBook sample_env
           (booking_form "Alice" "a@x.com" "2024-02-01" "09:00") alice_in).
  - exists alice. repeat split. apply list_elem_of_singleton. reflexivity.
  - split; repeat constructor; exists alice;
      (split; [apply list_elem_of_singleton|]; reflexivity).
Defined.

Lemma login_authenticates_iff_witness :
  resolve (w_session
             (login demo_check (login_form "A@x.com" "pw123") visitor).2)
  = Some 1.
Proof.
  apply (login_authenticates_iff demo_check (login_form "A@x.com" "pw123")
           visitor 1); [reflexivity..|].
  exists alice. repeat split.
Defined.

Lemma register_twice_rejected_witness :
  register demo_generate "s2" "2024-01-03T10:00:00"
    (register_form "Bobby" "B@X.COM" "other")
    (World
       (Session None None
          [("success", "Registration successful. Please log in.")])
       (Database
          [alice; User 2 "Bob" "b@x.com" "demo$hunter2" "2024-01-02T10:00:00"]
          (appointments alice_db) (reviews_table alice_db)))
  = (Return (redirect UrlRegister),
     World
       (Session None None
          [("success", "Registration successful. Please log in.");
           ("warning", "An account with that email already exists.")])
       (Database
          [alice; User 2 "Bob" "b@x.com" "demo$hunter2" "2024-01-02T10:00:00"]
          (appointments alice_db) (reviews_table alice_db))).
Proof.
  apply (register_twice_rejected demo_generate
           "s1" "2024-01-02T10:00:00" "s2" "2024-01-03T10:00:00"
           (register_form "Bob" " B@X.com " "hunter2")
           (register_form "Bobby" "B@X.COM" "other")
           visitor); reflexivity.
Defined.

Lemma register_rejects_blank_witness :
  register demo_generate "s1" "2024-01-02T10:00:00"
    (register_form "   " "b@x.com" "hunter2") visitor
  = invalid UrlRegister "Please fill all fields." visitor.
Proof.
  apply (register_rejects_blank demo_generate "s1" "2024-01-02T10:00:00"
           (register_form "   " "b@x.com" "hunter2") visitor);
    [reflexivity..|].
  left. reflexivity.
Defined.

Lemma reviews_rating_out_of_range_witness :
  reviews "2024-01-02T10:00:00" (review_form "9223372036854775808") alice_in
  = (Raise OverflowError, alice_in).
Proof.
  apply (reviews_rating_out_of_range "2024-01-02T10:00:00"
           (review_form "9223372036854775808") alice_in 1
           9223372036854775808); [reflexivity..|].
  right. lia.
Defined.

Lemma review_post_shows_in_feed_witness :
  ∃ u : user,
    u ∈ users alice_db ∧ user_id u = 1 ∧
    (Review 2 (Some 1) "Bob" 4 "" "2024-01-02T10:00:00",
     Some (user_email u))
    ∈ list_all
        (w_db (reviews "2024-01-02T10:00:00" (review_form "4") alice_in).2).
Proof.
  refine (review_post_shows_in_feed "2024-01-02T10:00:00" (review_form "4")
            alice_in 1 4 _ _ _ _ _ _ _); try reflexivity.
  - exists alice. repeat split. apply list_elem_of_singleton. reflexivity.
  - repeat split; repeat constructor; simpl; lia.
Defined.

Lemma profile_shows_own_record_witness :
  ∃ u : user,
    profile (Request GET ∅) alice_in
    = (Return (render_template (profile_html (Some u))), alice_in) ∧
    u ∈ users alice_db ∧ user_id u = 1 ∧
    sess_user_name (w_session alice_in) = Some (user_name u).
Proof.
  apply (profile_shows_own_record (Request GET ∅) alice_in 1).
  - reflexivity.
  - exists alice. repeat split. apply list_elem_of_singleton. reflexivity.
  - repeat split; repeat constructor; simpl; lia.
Defined.

Lemma book_then_history_witness :
  list_for_owner (Some 2)
    (w_db (book "2024-01-02T10:00:00"
             (booking_form "Alice" "a@x.com" "2024-02-01" "09:00")
             alice_in).2)
  = list_for_owner (Some 2) alice_db.
Proof.
  refine (proj1 (proj2
    (book_then_history "2024-01-02T10:00:00" "2024-01-02T10:01:00"
       (booking_form "Alice" "a@x.com" "2024-02-01" "09:00") ∅
       alice_in 1 _ _ _)) 2 _); [reflexivity..|lia].
Defined.


(** The scenario of a first user: Alice registers, logs in and books;
    her history then holds that one appointment, owned by her. *)
Example alice_books_once :
  let w0 := World (Session None None []) (Database [] [] []) in
  let w1 := (register demo_generate "s1" "2024-01-01T09:00:00"
               (Request POST (<["name" := "Alice"]> (<["email" := "a@x.com"]>
                  {["password" := "pw123"]}))) w0).2 in
  let w2 := (login demo_check
               (Request POST
                  (<["email" := "a@x.com"]> {["password" := "pw123"]})) w1).2 in
  let w3 := (book "2024-01-01T09:05:00"
               (Request POST (<["name" := "Alice"]> (<["email" := "a@x.com"]>
                  (<["date" := "2024-01-01"]> (<["time" := "10:00"]>
                     {["reason" := "checkup"]}))))) w2).2 in
  resolve (w_session w3) = Some 1 ∧
  list_for_owner (resolve (w_session w3)) (w_db w3)
  = [Appointment 1 (Some 1) "Alice" "a@x.com" "2024-01-01" "10:00" "checkup"
       "2024-01-01T09:05:00"].
Proof. vm_compute. done. Qed.

(** The history of user 1 over a table shared with user 2 and with an
    ownerless row: the two rows of user 1, the later one first. *)
Example history_newest_first :
  list_for_owner (Some 1)
    (Database [] [
       Appointment 1 (Some 1) "A" "a@x.com" "2024-01-01" "10:00" ""
         "2024-01-01T09:00:00";
       Appointment 2 (Some 2) "B" "b@x.com" "2024-01-01" "11:00" ""
         "2024-01-01T09:30:00";
       Appointment 3 (Some 1) "A" "a@x.com" "2024-01-03" "10:00" ""
         "2024-01-02T08:00:00.000123";
       Appointment 4 None "C" "c@x.com" "2024-01-03" "10:00" ""
         "2024-01-02T09:00:00"] [])
  = [Appointment 3 (Some 1) "A" "a@x.com" "2024-01-03" "10:00" ""
       "2024-01-02T08:00:00.000123";
     Appointment 1 (Some 1) "A" "a@x.com" "2024-01-01" "10:00" ""
       "2024-01-01T09:00:00"].
Proof. vm_compute. done. Qed.

(** [strip] and the address normalisation on padded, mixed-case text. *)
Example strip_lower_samples :
  Py.strip "  a b  " = "a b" ∧ Py.strip "   " = "" ∧
  normalize_email " Alice@X.Com " = "alice@x.com".
Proof. vm_compute. done. Qed.

(** [int] on a few literals. *)
Example int_literals :
  Py.int "4" = Some 4 ∧ Py.int " -12 " = Some (-12) ∧ Py.int "+7" = Some 7 ∧
  Py.int "1_000" = Some 1000 ∧ Py.int "abc" = None ∧ Py.int "4.5" = None ∧
  Py.int "" = None ∧ Py.int "_1" = None ∧ Py.int "1__0" = None ∧
  Py.int "- 1" = None.
Proof. vm_compute. done. Qed.

(** The form of the blank-field run above, with its date filled in, is
    accepted: the blank date alone made it fail. *)
Example complete_booking_accepted :
  appointments
    (w_db (book "2024-01-02T10:00:00"
             (booking_form "Alice" "a@x.com" "2024-02-01" "09:00")
             alice_in).2)
  = (appointments alice_db ++
     [Appointment 2 (Some 1) "Alice" "a@x.com" "2024-02-01" "09:00" ""
        "2024-01-02T10:00:00"])%list.
Proof. vm_compute. done. Qed.

(** A name that is a no-break space is no name: [strip] empties it and
    the booking is refused. *)
Example no_break_space_is_blank :
  Py.strip (Py.chr 160) = "" ∧
  Py.strip (Py.text [12288; 65; 32; 66; 8201; 133]%N) = "A B" ∧
  book "2024-01-02T10:00:00"
    (booking_form (Py.chr 160) "a@x.com" "2024-02-01" "09:00") alice_in
  = invalid UrlBook "Please fill all required fields." alice_in.
Proof. vm_compute. done. Qed.

(** Appointments made in the same instant come in rowid order, whatever
    the order in which the table lists them. *)
Example history_ties_by_rowid :
  appt_id <$>
    list_for_owner (Some 1)
      (Database [] [
         Appointment 3 (Some 1) "A" "a@x.com" "2024-01-03" "10:00" ""
           "2024-01-01T09:00:00";
         Appointment 1 (Some 1) "A" "a@x.com" "2024-01-01" "10:00" ""
           "2024-01-01T09:00:00";
         Appointment 4 (Some 1) "A" "a@x.com" "2024-01-04" "10:00" ""
           "2024-01-02T09:00:00";
         Appointment 2 (Some 1) "A" "a@x.com" "2024-01-02" "10:00" ""
           "2024-01-01T09:00:00"] [])
  = [4; 1; 2; 3].
Proof. vm_compute. done. Qed.

(** [int] refuses a literal of more than 4300 digits. *)
Example int_digit_limit :
  Py.int (string_of_list_ascii (replicate 4301 "9"%char)) = None ∧
  is_Some (Py.int (string_of_list_ascii (replicate 4300 "9"%char))) ∧
  Py.int (string_of_list_ascii (replicate 4300 "0"%char) +:+ "4") = None.
Proof. vm_compute. repeat split. by eexists. Qed.

End Runs.
